(** * The system-call boundary of the Pintos kernel (userprog/syscall.c)

    A shallow embedding of [src/pintos/src/userprog/syscall.c].  The kernel
    code is written in C over the state of the running thread, a global
    file-system lock, the user address space and a number of collaborators
    (file system, console, keyboard, process control, supplemental page table)
    whose sources are not part of this file.  Every C function of syscall.c
    becomes a computation in a small state-and-termination monad; the
    collaborators are either operations of an interface ([Collaborators]) or
    small definitions written after the design document, which are marked as
    such. *)

From stdpp Require Import base numbers option list gmap.

Open Scope Z_scope.

(** ** Machine words and addresses *)

(** [uint32_t] values and pointers are integers in [0, 2^32); arithmetic on
    them wraps around. *)
Definition wrap32 (z : Z) : Z := z mod 4294967296.

(** Conversion [uint32_t -> int] as performed when a raw argument word is
    passed to a handler taking an [int]. *)
Definition to_int32 (z : Z) : Z :=
  let w := wrap32 z in if w <? 2147483648 then w else w - 4294967296.

(** Modelled from the spec: threads/vaddr.h is not among the sources.  The
    page size is the one of the design document's mmap scenario (a 10-byte
    file maps to 10 file bytes and 4086 zero bytes). *)
Definition PGSIZE : Z := 4096.

(** Modelled from the spec: the kernel/user split of the address space;
    Pintos puts it at 0xc0000000. *)
Definition PHYS_BASE : Z := 3221225472.

(** Modelled from the spec: lib/syscall-nr.h is not among the sources.  The
    calls are numbered from 0 in the order of the interface table of the
    design document, which is the order of the Pintos header. *)
Definition SYS_HALT : Z := 0.
Definition SYS_EXIT : Z := 1.
Definition SYS_EXEC : Z := 2.
Definition SYS_WAIT : Z := 3.
Definition SYS_CREATE : Z := 4.
Definition SYS_REMOVE : Z := 5.
Definition SYS_OPEN : Z := 6.
Definition SYS_FILESIZE : Z := 7.
Definition SYS_READ : Z := 8.
Definition SYS_WRITE : Z := 9.
Definition SYS_SEEK : Z := 10.
Definition SYS_TELL : Z := 11.
Definition SYS_CLOSE : Z := 12.
Definition SYS_MMAP : Z := 13.
Definition SYS_MUNMAP : Z := 14.

(** Modelled from the spec: [is_user_vaddr] of threads/vaddr.h: the address
    lies in the user portion of the address space. *)
Definition is_user_vaddr (addr : Z) : bool := addr <? PHYS_BASE.

(** Modelled from the spec: [is_valid_user_addr] is declared outside
    syscall.c.  The address classifier of the design document: true iff the
    address is non-null and lies below the kernel/user split. *)
Definition is_valid_user_addr (addr : Z) : bool :=
  negb (addr =? 0) && is_user_vaddr addr.

(** Page number of the page containing [addr] (the key of the SPT). *)
Definition pg_no (addr : Z) : Z := addr / PGSIZE.

(** ** Data model *)

(** Provenance tag of a supplemental page table entry. *)
Inductive provenance := ZERO | FILE_EXECUTABLE | FILE_MAPPED | SWAPPED | FRAMED.

(** [struct spt_entry] (vm/page.h); syscall.c itself reads [writeable] and
    writes [pinned]. *)
Record spt_entry := mk_spte {
  spte_tag : provenance;
  writeable : bool;
  pinned : bool;
  spte_file : Z;
  spte_ofs : Z;
  spte_read_bytes : Z;
  spte_zero_bytes : Z
}.

(** [struct file_descriptor]: descriptor number, open file, name. *)
Record file_descriptor := mk_fd {
  fd : Z;
  file_pointer : Z;
  name : list Z
}.

(** One page of a memory mapping, as registered in the thread's [mmap_list]. *)
Record mmap_entry := mk_mm {
  mm_mapid : Z;
  mm_upage : Z;
  mm_file : Z
}.

(** What reaches the console: [putbuf] output and the exit message printed by
    [sys_exit]. *)
Inductive console_event :=
| Putbuf (bytes : list Z)
| ExitMessage (status : Z).

(** [struct intr_frame]: the two registers the dispatcher uses. *)
Record intr_frame := mk_frame { esp : Z; eax : Z }.

Definition set_eax (v : Z) (f : intr_frame) : intr_frame :=
  {| esp := esp f; eax := v |}.

(** ** Collaborators

    The raw file system, process control and the keyboard are opaque
    operations over an abstract state [ext]. File handles ([struct file *])
    are integers, 0 being NULL. *)
Class Collaborators := {
  ext : Type;
  filesys_create : list Z -> Z -> ext -> bool * ext;
  filesys_remove : list Z -> ext -> bool * ext;
  filesys_open : list Z -> ext -> Z * ext;
  file_close : Z -> ext -> ext;
  file_read : Z -> Z -> ext -> list Z * ext;
  file_write : Z -> list Z -> ext -> Z * ext;
  file_write_at : Z -> list Z -> Z -> ext -> Z * ext;
  file_length : Z -> ext -> Z;
  file_seek : Z -> Z -> ext -> ext;
  file_tell : Z -> ext -> Z;
  file_reopen : Z -> ext -> Z * ext;
  process_execute : list Z -> ext -> Z * ext;
  process_wait : Z -> ext -> Z * ext;
  (** the dirty bit of a page in the address translation of the process *)
  pagedir_is_dirty : Z -> ext -> bool;
  (** the n-th key delivered by the keyboard *)
  input_key : nat -> Z;
  (** the stack-growth rule of the page-fault handler *)
  is_stack_growth : Z -> Z -> bool;
  (** whether a frame can be obtained for a fresh stack page *)
  frame_for_stack : Z -> bool
}.

Section Syscall.

Context {env : Collaborators}.

(** The state the system calls work on: the relevant fields of
    [thread_current ()], the global [filesystem_lock], the bytes of the user
    address space and the devices. *)
Record state := mk_state {
  file_descriptors : list file_descriptor;
  fd_index : Z;
  exit_status : Z;
  mapid : Z;
  mmap_list : list mmap_entry;
  spt : gmap Z spt_entry;
  filesystem_lock : bool;
  umem : Z -> Z;
  world : ext;
  console : list console_event;
  keys_read : nat
}.

Definition set_file_descriptors (v : list file_descriptor) (s : state) : state :=
  mk_state v (fd_index s) (exit_status s) (mapid s) (mmap_list s) (spt s)
           (filesystem_lock s) (umem s) (world s) (console s) (keys_read s).
Definition set_fd_index (v : Z) (s : state) : state :=
  mk_state (file_descriptors s) v (exit_status s) (mapid s) (mmap_list s) (spt s)
           (filesystem_lock s) (umem s) (world s) (console s) (keys_read s).
Definition set_exit_status (v : Z) (s : state) : state :=
  mk_state (file_descriptors s) (fd_index s) v (mapid s) (mmap_list s) (spt s)
           (filesystem_lock s) (umem s) (world s) (console s) (keys_read s).
Definition set_mapid (v : Z) (s : state) : state :=
  mk_state (file_descriptors s) (fd_index s) (exit_status s) v (mmap_list s) (spt s)
           (filesystem_lock s) (umem s) (world s) (console s) (keys_read s).
Definition set_mmap_list (v : list mmap_entry) (s : state) : state :=
  mk_state (file_descriptors s) (fd_index s) (exit_status s) (mapid s) v (spt s)
           (filesystem_lock s) (umem s) (world s) (console s) (keys_read s).
Definition set_spt (v : gmap Z spt_entry) (s : state) : state :=
  mk_state (file_descriptors s) (fd_index s) (exit_status s) (mapid s) (mmap_list s) v
           (filesystem_lock s) (umem s) (world s) (console s) (keys_read s).
Definition set_filesystem_lock (v : bool) (s : state) : state :=
  mk_state (file_descriptors s) (fd_index s) (exit_status s) (mapid s) (mmap_list s) (spt s)
           v (umem s) (world s) (console s) (keys_read s).
Definition set_umem (v : Z -> Z) (s : state) : state :=
  mk_state (file_descriptors s) (fd_index s) (exit_status s) (mapid s) (mmap_list s) (spt s)
           (filesystem_lock s) v (world s) (console s) (keys_read s).
Definition set_world (v : ext) (s : state) : state :=
  mk_state (file_descriptors s) (fd_index s) (exit_status s) (mapid s) (mmap_list s) (spt s)
           (filesystem_lock s) (umem s) v (console s) (keys_read s).
Definition set_console (v : list console_event) (s : state) : state :=
  mk_state (file_descriptors s) (fd_index s) (exit_status s) (mapid s) (mmap_list s) (spt s)
           (filesystem_lock s) (umem s) (world s) v (keys_read s).
Definition set_keys_read (v : nat) (s : state) : state :=
  mk_state (file_descriptors s) (fd_index s) (exit_status s) (mapid s) (mmap_list s) (spt s)
           (filesystem_lock s) (umem s) (world s) (console s) v.

(** ** The monad of kernel code

    A kernel function either returns a value in a new state, or control
    never comes back to its caller: the thread exits ([thread_exit]), the
    machine is powered off, the kernel faults, or (in the model only) the
    iteration budget of an unbounded string loop is used up. *)
Inductive outcome (A : Type) : Type :=
| Ret (a : A) (s : state)
| Exited (s : state)
| PoweredOff (s : state)
| KernelPanic (s : state)
| OutOfFuel.

Arguments Ret {A} a s.
Arguments Exited {A} s.
Arguments PoweredOff {A} s.
Arguments KernelPanic {A} s.
Arguments OutOfFuel {A}.

Definition M (A : Type) : Type := state -> outcome A.

Definition ret {A} (a : A) : M A := fun s => Ret a s.

Definition bind {A B} (m : M A) (k : A -> M B) : M B :=
  fun s =>
    match m s with
    | Ret a s' => k a s'
    | Exited s' => Exited s'
    | PoweredOff s' => PoweredOff s'
    | KernelPanic s' => KernelPanic s'
    | OutOfFuel => OutOfFuel
    end.

Notation "'let*' x ':=' m 'in' k" := (bind m (fun x => k))
  (at level 10, x name, m at level 100, k at level 200).
Notation "m1 ;;; m2" := (bind m1 (fun _ => m2))
  (at level 100, m2 at level 200, right associativity).

Definition gets {A} (f : state -> A) : M A := fun s => Ret (f s) s.
Definition modify (f : state -> state) : M unit := fun s => Ret tt (f s).
Definition out_of_fuel {A} : M A := fun _ => OutOfFuel.
Definition kernel_panic {A} : M A := fun s => KernelPanic s.

(** [ASSERT (c)]: the kernel panics when [c] is false. *)
Definition ASSERT (c : bool) : M unit := if c then ret tt else kernel_panic.

(** ** User memory *)

Definition load8 (addr : Z) : M Z := gets (fun s => umem s (wrap32 addr)).

(** [*(uint32_t * ) addr], little endian. *)
Definition mem32 (m : Z -> Z) (addr : Z) : Z :=
  wrap32 (m (wrap32 addr) + 256 * m (wrap32 (addr + 1))
          + 65536 * m (wrap32 (addr + 2)) + 16777216 * m (wrap32 (addr + 3))).

Definition load32 (addr : Z) : M Z := gets (fun s => mem32 (umem s) addr).

Fixpoint mem_bytes (m : Z -> Z) (addr : Z) (n : nat) : list Z :=
  match n with
  | O => []
  | S k => m (wrap32 addr) :: mem_bytes m (addr + 1) k
  end.

Fixpoint mem_store (m : Z -> Z) (addr : Z) (data : list Z) : Z -> Z :=
  match data with
  | [] => m
  | b :: rest =>
      mem_store (fun a => if a =? wrap32 addr then b else m a) (addr + 1) rest
  end.

(** The NUL-terminated string at [addr], terminator excluded; [None] when no
    terminator is met within [fuel] bytes. *)
Fixpoint mem_cstring (fuel : nat) (m : Z -> Z) (addr : Z) : option (list Z) :=
  match fuel with
  | O => None
  | S k =>
      let c := m (wrap32 addr) in
      if c =? 0 then Some []
      else match mem_cstring k m (wrap32 (addr + 1)) with
           | Some s => Some (c :: s)
           | None => None
           end
  end.

Definition load_cstring (fuel : nat) (addr : Z) : M (list Z) :=
  fun s => match mem_cstring fuel (umem s) addr with
           | Some str => Ret str s
           | None => OutOfFuel
           end.

(** ** Collaborating kernel code that syscall.c calls *)

(** Modelled from the spec: [lock_acquire] and [lock_release] of
    threads/synch.c, on the one file-system lock.  The lock is a flag telling
    whether the running thread holds it. *)
Definition lock_acquire : M unit := modify (set_filesystem_lock true).
Definition lock_release : M unit := modify (set_filesystem_lock false).

(** Modelled from the spec: [get_spte] of vm/page.c, the lookup of the SPT:
    the entry covering the page that contains [addr], or absence. *)
Definition get_spte (addr : Z) (s : state) : option spt_entry :=
  spt s !! pg_no addr.

(** Modelled from the spec: [spt_load] of vm/page.c as used by the pinning
    layer: the page is made resident and its pinned flag is set. *)
Definition load_and_pin (e : spt_entry) : spt_entry :=
  mk_spte FRAMED (writeable e) true (spte_file e) (spte_ofs e)
          (spte_read_bytes e) (spte_zero_bytes e).

Definition spt_load (addr : Z) (e : spt_entry) : M unit :=
  modify (fun s => set_spt (<[pg_no addr := load_and_pin e]> (spt s)) s).

(** Modelled from the spec: [spt_stack_growth] of vm/page.c: a fresh
    zero-filled writable entry is made at the page and loaded at once; it
    fails when no frame can be had. *)
Definition spt_stack_growth (addr : Z) : M bool :=
  fun s =>
    if frame_for_stack (pg_no addr) then
      Ret true (set_spt (<[pg_no addr := mk_spte FRAMED true true 0 0 0 PGSIZE]> (spt s)) s)
    else Ret false s.

(** Modelled from the spec: [spt_link_mmap] of vm/page.c: one FILE_MAPPED
    entry is created for the page at [upage] and registered under the
    thread's current mapid; creation fails when the page already has an
    entry (page addresses are unique keys of the SPT). *)
Definition spt_link_mmap (file ofs upage read_bytes zero_bytes : Z)
    (writable : bool) : M bool :=
  fun s =>
    match spt s !! pg_no upage with
    | Some _ => Ret false s
    | None =>
        Ret true
          (set_mmap_list (mmap_list s ++ [mk_mm (mapid s) (pg_no upage) file])
             (set_spt (<[pg_no upage :=
                          mk_spte FILE_MAPPED writable false file ofs
                                  read_bytes zero_bytes]> (spt s)) s))
    end.

(** Modelled from the spec: [remove_mapid] of vm/page.c, the unmap of the
    design document: for every SPT entry registered under the mapid, if the
    page is resident and dirty its bytes are written back to the file at the
    entry's recorded offset; then the entry is removed, and so is its
    registration. *)
Definition mapped_under (map : Z) (m : mmap_entry) : bool := mm_mapid m =? map.

Definition resident (e : spt_entry) : bool :=
  match spte_tag e with
  | FRAMED => true
  | _ => false
  end.

Definition page_bytes (s : state) (upage : Z) (e : spt_entry) : list Z :=
  mem_bytes (umem s) (upage * PGSIZE) (Z.to_nat (spte_read_bytes e)).

Definition write_back (m : mmap_entry) (s : state) : state :=
  match spt s !! mm_upage m with
  | Some e =>
      if resident e && pagedir_is_dirty (mm_upage m) (world s) then
        set_world (file_write_at (spte_file e) (page_bytes s (mm_upage m) e)
                                 (spte_ofs e) (world s)).2 s
      else s
  | None => s
  end.

Definition write_back_pages (l : list mmap_entry) (s : state) : state :=
  foldl (fun t m => write_back m t) s l.

Definition unmap_pages (l : list mmap_entry) (t : gmap Z spt_entry)
    : gmap Z spt_entry :=
  foldr (fun m acc => delete (mm_upage m) acc) t l.

Definition unmap (map : Z) (s : state) : state :=
  let mine := filter (fun m => mapped_under map m = true) (mmap_list s) in
  set_mmap_list (filter (fun m => mapped_under map m = false) (mmap_list s))
    (set_spt (unmap_pages mine (spt s)) (write_back_pages mine s)).

Definition remove_mapid (map : Z) : M unit := modify (unmap map).

(** Modelled from the spec: [thread_exit] of threads/thread.c, which runs the
    per-process cleanup of userprog/process.c and never returns: unmap is
    invoked for each mapping of the process, then its SPT is destroyed. *)
Definition unmap_each (ids : list Z) (s : state) : state :=
  foldr unmap s ids.

Definition process_cleanup (s : state) : state :=
  set_spt ∅ (unmap_each (mm_mapid <$> mmap_list s) s).

Definition thread_exit {A} : M A := fun s => Exited (process_cleanup s).

(** Modelled from the spec: [shutdown_power_off] of devices/shutdown.c:
    system power-off, never returns. *)
Definition shutdown_power_off {A} : M A := fun s => PoweredOff s.

(** Modelled from the spec: [putbuf] of lib/kernel/console.c writes [size]
    bytes to the console. *)
Definition putbuf (buffer : Z) (size : Z) : M unit :=
  modify (fun s =>
    set_console (console s ++ [Putbuf (mem_bytes (umem s) buffer (Z.to_nat size))]) s).

(** Modelled from the spec: [input_getc] of devices/input.c reads one byte
    from the keyboard. *)
Definition input_getc : M Z :=
  fun s => Ret (input_key (keys_read s)) (set_keys_read (S (keys_read s)) s).

(** ** syscall.c *)

(** [sys_exit]: close and free every descriptor of the thread (front to
    back), record the status, print the exit message, leave. *)
Fixpoint close_all (l : list file_descriptor) (w : ext) : ext :=
  match l with
  | [] => w
  | fd_s :: rest => close_all rest (file_close (file_pointer fd_s) w)
  end.

Definition sys_exit {A} (status : Z) : M A :=
  modify (fun s =>
    set_file_descriptors [] (set_world (close_all (file_descriptors s) (world s)) s)) ;;;
  modify (set_exit_status status) ;;;
  modify (fun s => set_console (console s ++ [ExitMessage status]) s) ;;;
  thread_exit.

(** [check_and_pin_addr]: returns the entry found by [get_spte] (NULL when
    the page was grown instead). *)
Definition check_and_pin_addr (addr esp_ : Z) : M (option spt_entry) :=
  let* spte := gets (get_spte addr) in
  match spte with
  | Some e => spt_load addr e ;;; ret spte
  | None =>
      if is_stack_growth addr esp_ then
        let* ok := spt_stack_growth addr in
        if negb ok then sys_exit (-1) else ret spte
      else sys_exit (-1)
  end.

(** [for (addr = uaddr; addr < uaddr + len; ++addr) body (addr)].  The bound
    is a 32-bit pointer sum, so it wraps; the loop runs at most
    [bound - uaddr] times, which is the budget [for_addr] passes on. *)
Fixpoint for_addr_loop (n : nat) (addr bound : Z) (body : Z -> M unit) : M unit :=
  match n with
  | O => ret tt
  | S k =>
      if addr <? bound then body addr ;;; for_addr_loop k (addr + 1) bound body
      else ret tt
  end.

Definition for_addr (uaddr len : Z) (body : Z -> M unit) : M unit :=
  let bound := wrap32 (uaddr + len) in
  for_addr_loop (Z.to_nat (bound - uaddr)) uaddr bound body.

Definition check_and_pin_buffer (uaddr len esp_ : Z) (write : bool) : M unit :=
  for_addr uaddr len (fun addr =>
    (if negb (is_valid_user_addr addr) then sys_exit (-1) else ret tt) ;;;
    let* spte := check_and_pin_addr addr esp_ in
    match spte with
    | Some e => if write && negb (writeable e) then sys_exit (-1) else ret tt
    | None => ret tt
    end).

Fixpoint check_and_pin_string_loop (fuel : nat) (str esp_ : Z) : M unit :=
  match fuel with
  | O => out_of_fuel
  | S k =>
      let* c := load8 str in
      if c =? 0 then ret tt
      else
        let str' := wrap32 (str + 1) in
        check_and_pin_addr str' esp_ ;;; check_and_pin_string_loop k str' esp_
  end.

Definition check_and_pin_string (fuel : nat) (str esp_ : Z) : M unit :=
  check_and_pin_addr str esp_ ;;; check_and_pin_string_loop fuel str esp_.

Definition unpin_entry (e : spt_entry) : spt_entry :=
  mk_spte (spte_tag e) (writeable e) false (spte_file e) (spte_ofs e)
          (spte_read_bytes e) (spte_zero_bytes e).

Definition unpin_addr (addr : Z) : M unit :=
  let* spte := gets (get_spte addr) in
  match spte with
  | Some e => modify (fun s => set_spt (<[pg_no addr := unpin_entry e]> (spt s)) s)
  | None => ret tt
  end.

Definition unpin_buffer (uaddr len : Z) : M unit :=
  for_addr uaddr len unpin_addr.

Fixpoint unpin_string_loop (fuel : nat) (str : Z) : M unit :=
  match fuel with
  | O => out_of_fuel
  | S k =>
      let* c := load8 str in
      if c =? 0 then ret tt
      else
        let str' := wrap32 (str + 1) in
        unpin_addr str' ;;; unpin_string_loop k str'
  end.

Definition unpin_string (fuel : nat) (str : Z) : M unit :=
  unpin_addr str ;;; unpin_string_loop fuel str.

Definition valid_uaddr (uaddr len : Z) : M unit :=
  for_addr uaddr len (fun addr =>
    let* spte := gets (get_spte addr) in
    if (addr =? 0) || negb (is_user_vaddr addr) || negb (bool_decide (is_Some spte))
    then sys_exit (-1)
    else ret tt).

(** [get_syscall_arg]: the [argc] words above the stack pointer.  Note the
    second argument of [check_and_pin_addr]: the source passes
    [sizeof (uint32_t)], not [f->esp]. *)
Fixpoint get_syscall_arg_loop (ptr : Z) (argc : nat) : M (list Z) :=
  match argc with
  | O => ret []
  | S k =>
      check_and_pin_addr ptr 4 ;;;
      let* v := load32 ptr in
      let* rest := get_syscall_arg_loop (wrap32 (ptr + 4)) k in
      ret (v :: rest)
  end.

Definition get_syscall_arg (f : intr_frame) (argc : nat) : M (list Z) :=
  get_syscall_arg_loop (wrap32 (esp f + 4)) argc.

(** [syscall_args[i]]. *)
Definition arg (args : list Z) (i : nat) : Z := nth i args 0.

Definition get_syscall_type (f : intr_frame) : M Z :=
  valid_uaddr (esp f) 4 ;;;
  let* v := load32 (esp f) in
  ret (to_int32 v).

Fixpoint valid_string_loop (fuel : nat) (ptr : Z) : M unit :=
  match fuel with
  | O => out_of_fuel
  | S k =>
      valid_uaddr ptr 1 ;;;
      let* c := load8 ptr in
      if c =? 0 then valid_uaddr ptr 1
      else valid_string_loop k (wrap32 (ptr + 1))
  end.

Definition valid_string (fuel : nat) (str : Z) : M unit :=
  valid_string_loop fuel str.

Fixpoint get_fdstruct_in (l : list file_descriptor) (fdn : Z)
    : option file_descriptor :=
  match l with
  | [] => None
  | f :: rest => if fd f =? fdn then Some f else get_fdstruct_in rest fdn
  end.

Definition get_fdstruct (fdn : Z) : M (option file_descriptor) :=
  gets (fun s => get_fdstruct_in (file_descriptors s) fdn).

Definition bool_to_Z (b : bool) : Z := if b then 1 else 0.

(** A call of a collaborator that returns a value and changes the outside
    world. *)
Definition call_world {A} (op : ext -> A * ext) : M A :=
  fun s => let (r, w) := op (world s) in Ret r (set_world w s).

Definition sys_create (fuel : nat) (file initial_size : Z) : M bool :=
  valid_string fuel file ;;;
  lock_acquire ;;;
  let* path := load_cstring fuel file in
  let* success := call_world (filesys_create path initial_size) in
  lock_release ;;;
  ret success.

Definition sys_remove (fuel : nat) (file : Z) : M bool :=
  valid_string fuel file ;;;
  lock_acquire ;;;
  let* path := load_cstring fuel file in
  let* success := call_world (filesys_remove path) in
  lock_release ;;;
  ret success.

(** [strlcpy (dst, src, strlen (src))] copies all but the last character. *)
Definition strlcpy_strlen (src : list Z) : list Z :=
  take (length src - 1)%nat src.

Definition sys_open (fuel : nat) (file : Z) : M Z :=
  valid_string fuel file ;;;
  lock_acquire ;;;
  let* path := load_cstring fuel file in
  let* fo := call_world (filesys_open path) in
  if fo =? 0 then lock_release ;;; ret (-1)
  else
    let* n := gets fd_index in
    modify (set_fd_index (to_int32 (n + 1))) ;;;
    let fd_s := mk_fd n fo (strlcpy_strlen path) in
    modify (fun s => set_file_descriptors (file_descriptors s ++ [fd_s]) s) ;;;
    lock_release ;;;
    ret (fd fd_s).

Fixpoint remove_fd (l : list file_descriptor) (fdn : Z) : list file_descriptor :=
  match l with
  | [] => []
  | f :: rest => if fd f =? fdn then rest else f :: remove_fd rest fdn
  end.

Definition sys_close (fdn : Z) : M unit :=
  (if fdn <? 2 then sys_exit (-1) else ret tt) ;;;
  let* fd_s := get_fdstruct fdn in
  match fd_s with
  | None => sys_exit (-1)
  | Some d =>
      lock_acquire ;;;
      modify (fun s => set_world (file_close (file_pointer d) (world s)) s) ;;;
      modify (fun s => set_file_descriptors (remove_fd (file_descriptors s) fdn) s) ;;;
      lock_release
  end.

Definition sys_write (fdn buffer size : Z) : M Z :=
  lock_acquire ;;;
  if fdn =? 0 then
    lock_release ;;; sys_exit (-1)
  else if fdn =? 1 then
    putbuf buffer size ;;;
    lock_release ;;;
    ret (to_int32 size)
  else
    let* fd_s := get_fdstruct fdn in
    match fd_s with
    | None => lock_release ;;; ret (-1)
    | Some d =>
        let* data := gets (fun s => mem_bytes (umem s) buffer (Z.to_nat size)) in
        let* r := call_world (file_write (file_pointer d) data) in
        lock_release ;;;
        ret r
    end.

Definition sys_read (fdn buffer size : Z) : M Z :=
  lock_acquire ;;;
  if fdn =? 0 then
    input_getc ;;;
    ret 0
  else if fdn =? 1 then
    lock_release ;;; sys_exit (-1)
  else
    let* fd_s := get_fdstruct fdn in
    match fd_s with
    | None => lock_release ;;; ret (-1)
    | Some d =>
        let* data := call_world (file_read (file_pointer d) size) in
        let got := take (Z.to_nat size) data in
        modify (fun s => set_umem (mem_store (umem s) buffer got) s) ;;;
        lock_release ;;;
        ret (Z.of_nat (length got))
    end.

Definition sys_filesize (fdn : Z) : M Z :=
  let* fd_s := get_fdstruct fdn in
  match fd_s with
  | None => ret (-1)
  | Some d =>
      lock_acquire ;;;
      let* r := gets (fun s => file_length (file_pointer d) (world s)) in
      lock_release ;;;
      ret r
  end.

Definition sys_exec (fuel : nat) (cmd_line : Z) : M Z :=
  valid_string fuel cmd_line ;;;
  let* line := load_cstring fuel cmd_line in
  call_world (process_execute line).

Definition sys_wait (pid : Z) : M Z := call_world (process_wait pid).

Definition sys_seek (fdn position : Z) : M unit :=
  let* fd_s := get_fdstruct fdn in
  match fd_s with
  | None => ret tt
  | Some d =>
      lock_acquire ;;;
      modify (fun s => set_world (file_seek (file_pointer d) position (world s)) s) ;;;
      lock_release
  end.

(** [sys_tell] returns [unsigned]: its -1 is the word 0xffffffff. *)
Definition sys_tell (fdn : Z) : M Z :=
  let* fd_s := get_fdstruct fdn in
  match fd_s with
  | None => ret (wrap32 (-1))
  | Some d =>
      lock_acquire ;;;
      let* pos := gets (fun s => wrap32 (file_tell (file_pointer d) (world s))) in
      lock_release ;;;
      ret pos
  end.

Definition sys_halt {A} : M A := shutdown_power_off.

(** The loop of [sys_mmap]; [read_bytes] strictly decreases, so a budget of
    [read_bytes] iterations is never used up.  The result tells whether the
    loop ran to its end ([false]: the early [return -1]). *)
Fixpoint sys_mmap_loop (n : nat) (file ofs addr read_bytes : Z) : M bool :=
  match n with
  | O => ret true
  | S k =>
      if 0 <? read_bytes then
        let page_read_bytes := if read_bytes <? PGSIZE then read_bytes else PGSIZE in
        let page_zero_bytes := PGSIZE - page_read_bytes in
        let* linked :=
          spt_link_mmap file ofs addr page_read_bytes page_zero_bytes true in
        if negb linked then ret false
        else
          sys_mmap_loop k file (ofs + page_read_bytes) (wrap32 (addr + PGSIZE))
                        (read_bytes - page_read_bytes)
      else ret true
  end.

(** [sys_mmap].  The source reads [fd_s->file_pointer] before it tests
    [fd_s] against NULL; with no such descriptor this is a null-pointer
    dereference inside the kernel. *)
Definition sys_mmap (fdn addr : Z) : M Z :=
  let* fd_s := get_fdstruct fdn in
  match fd_s with
  | None => kernel_panic
  | Some d =>
      let* length := gets (fun s => to_int32 (file_length (file_pointer d) (world s))) in
      if negb (is_valid_user_addr addr) || negb (wrap32 addr mod PGSIZE =? 0)
         || (length =? 0)
      then ret (-1)
      else
        let* file := call_world (file_reopen (file_pointer d)) in
        let read_bytes := wrap32 length in
        let* complete := sys_mmap_loop (Z.to_nat read_bytes) file 0 addr read_bytes in
        if negb complete then ret (-1)
        else
          let* id := gets mapid in
          modify (set_mapid (to_int32 (id + 1))) ;;;
          ret id
  end.

Definition sys_munmap (map : Z) : M unit := remove_mapid map.

(** [syscall_handler]: the dispatcher.  It returns the interrupt frame with
    the result stored in [eax]. *)
Definition syscall_handler (fuel : nat) (f : intr_frame) : M intr_frame :=
  let* type := get_syscall_type f in
  check_and_pin_addr (esp f) (esp f) ;;;
  let* f' :=
    if type =? SYS_CREATE then
      let* a := get_syscall_arg f 2 in
      check_and_pin_string fuel (arg a 0) (esp f) ;;;
      let* r := sys_create fuel (arg a 0) (arg a 1) in
      ASSERT (is_valid_user_addr (arg a 0)) ;;;
      unpin_string fuel (arg a 0) ;;;
      ret (set_eax (bool_to_Z r) f)
    else if type =? SYS_REMOVE then
      let* a := get_syscall_arg f 1 in
      check_and_pin_string fuel (arg a 0) (esp f) ;;;
      let* r := sys_remove fuel (arg a 0) in
      ret (set_eax (bool_to_Z r) f)
    else if type =? SYS_OPEN then
      let* a := get_syscall_arg f 1 in
      check_and_pin_string fuel (arg a 0) (esp f) ;;;
      let* r := sys_open fuel (arg a 0) in
      ASSERT (is_valid_user_addr (arg a 0)) ;;;
      unpin_string fuel (arg a 0) ;;;
      ret (set_eax (wrap32 r) f)
    else if type =? SYS_CLOSE then
      let* a := get_syscall_arg f 1 in
      sys_close (to_int32 (arg a 0)) ;;;
      ret f
    else if type =? SYS_EXIT then
      let* a := get_syscall_arg f 1 in
      sys_exit (to_int32 (arg a 0))
    else if type =? SYS_WRITE then
      let* a := get_syscall_arg f 3 in
      check_and_pin_buffer (arg a 1) (arg a 2) (esp f) false ;;;
      let* r := sys_write (to_int32 (arg a 0)) (arg a 1) (arg a 2) in
      unpin_buffer (arg a 1) (arg a 2) ;;;
      ret (set_eax (wrap32 r) f)
    else if type =? SYS_READ then
      let* a := get_syscall_arg f 3 in
      check_and_pin_buffer (arg a 1) (arg a 2) (esp f) true ;;;
      let* r := sys_read (to_int32 (arg a 0)) (arg a 1) (arg a 2) in
      unpin_buffer (arg a 1) (arg a 2) ;;;
      ret (set_eax (wrap32 r) f)
    else if type =? SYS_FILESIZE then
      let* a := get_syscall_arg f 1 in
      let* r := sys_filesize (to_int32 (arg a 0)) in
      ret (set_eax (wrap32 r) f)
    else if type =? SYS_EXEC then
      let* a := get_syscall_arg f 1 in
      check_and_pin_string fuel (arg a 0) (esp f) ;;;
      let* r := sys_exec fuel (arg a 0) in
      ASSERT (is_valid_user_addr (arg a 0)) ;;;
      unpin_string fuel (arg a 0) ;;;
      ret (set_eax (wrap32 r) f)
    else if type =? SYS_WAIT then
      let* a := get_syscall_arg f 1 in
      let* r := sys_wait (to_int32 (arg a 0)) in
      ret (set_eax (wrap32 r) f)
    else if type =? SYS_SEEK then
      let* a := get_syscall_arg f 2 in
      sys_seek (to_int32 (arg a 0)) (arg a 1) ;;;
      ret f
    else if type =? SYS_TELL then
      let* a := get_syscall_arg f 1 in
      let* r := sys_tell (to_int32 (arg a 0)) in
      ret (set_eax r f)
    else if type =? SYS_MMAP then
      let* a := get_syscall_arg f 2 in
      let* r := sys_mmap (to_int32 (arg a 0)) (arg a 1) in
      ret (set_eax (wrap32 r) f)
    else if type =? SYS_MUNMAP then
      let* a := get_syscall_arg f 1 in
      sys_munmap (to_int32 (arg a 0)) ;;;
      ret f
    else if type =? SYS_HALT then
      sys_halt
    else ret f in
  unpin_addr (esp f) ;;;
  ret f'.

(** [syscall_init]: the registration of interrupt 0x30 has no counterpart
    here; [lock_init] leaves the file-system lock free. *)
Definition syscall_init : M unit := modify (set_filesystem_lock false).

(** ** Vocabulary of the statements *)

(** The state in which [sys_exit status] leaves the process. *)
Definition exit_state (status : Z) (s : state) : state :=
  process_cleanup
    (set_console (console s ++ [ExitMessage status])
       (set_exit_status status
          (set_file_descriptors []
             (set_world (close_all (file_descriptors s) (world s)) s)))).

(** The process was terminated and [status] is its recorded exit status. *)
Definition terminated_with {A} (status : Z) (o : outcome A) : Prop :=
  match o with
  | Exited s => exit_status s = status
  | _ => False
  end.

(** [s1] differs from [s] at most in the supplemental page table (pages
    loaded, pinned or grown): descriptors, mappings, memory, lock, outside
    world, console and keyboard are those of [s]. *)
Definition untouched (s s1 : state) : Prop := s1 = set_spt (spt s1) s.

(** A computation that, started in [s], either returns having changed at
    most the SPT, or terminates the process with status -1 having changed at
    most the SPT before the exit path ran. *)
Definition benign {A} (s : state) (o : outcome A) : Prop :=
  match o with
  | Ret _ s' => untouched s s'
  | Exited s' => exists s1, untouched s s1 /\ s' = exit_state (-1) s1
  | _ => False
  end.

(** A computation that, started in [s], terminates the process with status
    -1 having changed at most the SPT before the exit path ran. *)
Definition fatal {A} (s : state) (o : outcome A) : Prop :=
  exists s1, untouched s s1 /\ o = Exited (exit_state (-1) s1).

(** The i-th argument word of the request on the user stack. *)
Definition stack_arg (s : state) (f : intr_frame) (i : Z) : Z :=
  mem32 (umem s) (esp f + 4 * (i + 1)).

Definition request_type (s : state) (f : intr_frame) : Z :=
  to_int32 (mem32 (umem s) (esp f)).

(** The request carries a pointer argument that is null or outside user
    space, and that the dispatcher gets to check: the buffer of a read or
    write of non-zero length whose end does not wrap around the address
    space, or the string of create, remove, open or exec (a string that ends
    within [fuel] bytes and does not start at the last address). *)
Definition bad_pointer_request (fuel : nat) (f : intr_frame) (s : state) : bool :=
  let type := request_type s f in
  if (type =? SYS_READ) || (type =? SYS_WRITE) then
    negb (is_valid_user_addr (stack_arg s f 1))
    && (0 <? stack_arg s f 2)
    && (stack_arg s f 1 + stack_arg s f 2 <? 4294967296)
  else if (type =? SYS_CREATE) || (type =? SYS_REMOVE)
          || (type =? SYS_OPEN) || (type =? SYS_EXEC) then
    negb (is_valid_user_addr (stack_arg s f 0))
    && (stack_arg s f 0 <? 4294967295)
    && bool_decide (is_Some (mem_cstring fuel (umem s) (stack_arg s f 0)))
  else false.

End Syscall.

Arguments Ret {env A} a s.
Arguments Exited {env A} s.
Arguments PoweredOff {env A} s.
Arguments KernelPanic {env A} s.
Arguments OutOfFuel {env A}.

(** ** A concrete environment

    Used to run the system calls on explicit inputs. *)

(** Modelled from the spec: [is_stack_growth] of userprog/exception.c.  An
    address is legal stack growth iff it lies within a bounded distance
    ([STACK_SLACK]) below the stack pointer and within the maximum stack size
    ([STACK_MAX]) below the top of user memory. *)
Definition STACK_SLACK : Z := 32.
Definition STACK_MAX : Z := 8388608.

Definition stack_growth_rule (addr esp_ : Z) : bool :=
  (esp_ - STACK_SLACK <=? addr)
  && (PHYS_BASE - STACK_MAX <=? addr) && (addr <? PHYS_BASE).

(** The calls made to the file system and to process control, in order. *)
Inductive call :=
| FilesysCreate (path : list Z) (size : Z)
| FilesysRemove (path : list Z)
| FilesysOpen (path : list Z)
| FileClose (file : Z)
| FileRead (file size : Z)
| FileWrite (file : Z) (data : list Z)
| FileWriteAt (file : Z) (data : list Z) (pos : Z)
| FileSeek (file pos : Z)
| FileReopen (file : Z)
| ProcessExecute (line : list Z)
| ProcessWait (pid : Z).

(** An outside world that records every call; every file is [file_len] bytes
    long, [filesys_open] hands out the handle 100, reads return nothing,
    writes take everything and every resident page counts as dirty. *)
Definition recording_env (file_len : Z) : Collaborators := {|
  ext := list call;
  filesys_create path size w := (true, w ++ [FilesysCreate path size]);
  filesys_remove path w := (true, w ++ [FilesysRemove path]);
  filesys_open path w := (100, w ++ [FilesysOpen path]);
  file_close file w := w ++ [FileClose file];
  file_read file size w := ([], w ++ [FileRead file size]);
  file_write file data w := (Z.of_nat (length data), w ++ [FileWrite file data]);
  file_write_at file data pos w :=
    (Z.of_nat (length data), w ++ [FileWriteAt file data pos]);
  file_length file w := file_len;
  file_seek file pos w := w ++ [FileSeek file pos];
  file_tell file w := 0;
  file_reopen file w := (file + 1, w ++ [FileReopen file]);
  process_execute line w := (-1, w ++ [ProcessExecute line]);
  process_wait pid w := (-1, w ++ [ProcessWait pid]);
  pagedir_is_dirty upage w := true;
  input_key n := 97;
  is_stack_growth := stack_growth_rule;
  frame_for_stack upage := true
|}.

(** The four bytes of a word, little endian. *)
Definition le32 (v : Z) : list Z :=
  [v mod 256; (v / 256) mod 256; (v / 65536) mod 256; (v / 16777216) mod 256].

(** A user stack holding the words [ws] from address [sp] upwards. *)
Fixpoint push_words (m : Z -> Z) (sp : Z) (ws : list Z) : Z -> Z :=
  match ws with
  | [] => m
  | w :: rest => push_words (mem_store m sp (le32 w)) (sp + 4) rest
  end.

(** A resident, writable, unpinned page. *)
Definition plain_page : spt_entry := mk_spte FRAMED true false 0 0 0 0.

(** A process with descriptor 2 open on the file handle 100, the pages
    [pages] in its SPT and [m] as its memory. *)
Definition process_with (file_len : Z) (pages : list Z) (m : Z -> Z)
    : @state (recording_env file_len) :=
  @mk_state (recording_env file_len)
    [mk_fd 2 100 []] 3 0 0 [] (list_to_map ((fun p => (p, plain_page)) <$> pages))
    false m [] [] 0%nat.

(** What holds of the value and the state a computation returned with, and
    of the state a process was terminated in. *)
Definition on_return {env : Collaborators} {A} (o : outcome A)
    (P : A -> state -> Prop) : Prop :=
  match o with
  | Ret a s => P a s
  | _ => False
  end.

Definition on_exit {env : Collaborators} {A} (o : outcome A)
    (P : state -> Prop) : Prop :=
  match o with
  | Exited s => P s
  | _ => False
  end.

(** *** Requests used below

    The stack pointer of the requests lies in the topmost user page (number
    786431) unless stated otherwise. *)
Definition user_esp : Z := 3221225408.
Definition no_memory : Z -> Z := fun _ => 0.

(** [mmap (2, NULL)] by a process that has descriptor 2 open on a one-page
    file. *)
Definition mmap_null_frame : intr_frame := mk_frame user_esp 0.
Definition mmap_null_state : @state (recording_env 4096) :=
  process_with 4096 [786431] (push_words no_memory user_esp [SYS_MMAP; 2; 0]).

(** [read (2, NULL, 10)]. *)
Definition read_null_frame : intr_frame := mk_frame user_esp 0.
Definition read_null_state : @state (recording_env 4096) :=
  process_with 4096 [786431] (push_words no_memory user_esp [SYS_READ; 2; 0; 10]).

(** [read (2, NULL, 0)]. *)
Definition read_empty_frame : intr_frame := mk_frame user_esp 0.
Definition read_empty_state : @state (recording_env 4096) :=
  process_with 4096 [786431] (push_words no_memory user_esp [SYS_READ; 2; 0; 0]).

(** [write (7, 0xc0000000, 0x40000000)]: the buffer starts at the first
    kernel address and its end wraps around to 0. *)
Definition write_wrap_frame : intr_frame := mk_frame user_esp 0.
Definition write_wrap_state : @state (recording_env 4096) :=
  process_with 4096 [786431]
    (push_words no_memory user_esp [SYS_WRITE; 7; 3221225472; 1073741824]).

(** [create (0xffffffff, 0)]: the path starts at the last address, whose page
    (number 1048575) has an SPT entry; the byte there is 0. *)
Definition create_last_frame : intr_frame := mk_frame user_esp 0.
Definition create_last_state : @state (recording_env 4096) :=
  process_with 4096 [786431; 1048575]
    (push_words no_memory user_esp [SYS_CREATE; 4294967295; 0]).

(** [remove ("a")]: the path sits at 0x08048000 (page 32840), a page of its
    own, away from the stack page. *)
Definition remove_frame : intr_frame := mk_frame user_esp 0.
Definition remove_state : @state (recording_env 4096) :=
  process_with 4096 [786431; 32840]
    (mem_store (push_words no_memory user_esp [SYS_REMOVE; 134512640])
               134512640 [97; 0]).

(** A process with descriptor 2 open and the one-page mapping 0 of the file
    handle 101 at 0x10000000 (page 65536); the page is resident and holds
    the two file-backed bytes "hi". *)
Definition mapped_page : spt_entry := mk_spte FRAMED true false 101 0 2 4094.
Definition mapped_state : @state (recording_env 2) :=
  @mk_state (recording_env 2)
    [mk_fd 2 100 []] 3 0 1 [mk_mm 0 65536 101] (<[65536 := mapped_page]> ∅)
    false (mem_store no_memory 268435456 [104; 105]) [] [] 0%nat.

(** A process whose only descriptor is 2; no page is needed. *)
Definition plain_state : @state (recording_env 4096) :=
  process_with 4096 [] no_memory.

(** [mmap (2, 0x10000000)] of a two-page file (pages 65536 and 65537) when
    page 65537 is already in use. *)
Definition mmap_clash_state : @state (recording_env 8192) :=
  process_with 8192 [65537] no_memory.


(** *** Further vocabulary *)

(** What holds of the value and the state of a computation if it returns. *)
Definition when_returns {env : Collaborators} {A} (o : outcome A)
    (P : A -> state -> Prop) : Prop :=
  match o with
  | Ret a s => P a s
  | _ => True
  end.

(** The descriptor numbers in the table are distinct, at least 2 and below
    the counter the next number is taken from. *)
Definition fd_table_ok {env : Collaborators} (s : state) : Prop :=
  NoDup (fd <$> file_descriptors s)
  /\ 2 <= fd_index s
  /\ Forall (fun d => 2 <= fd d < fd_index s) (file_descriptors s).

(** The per-process tables (descriptors and their counter, SPT, mappings and
    their counter) of [s'] are those of [s]. *)
Definition same_tables {env : Collaborators} (s s' : state) : Prop :=
  file_descriptors s' = file_descriptors s
  /\ fd_index s' = fd_index s
  /\ spt s' = spt s
  /\ mmap_list s' = mmap_list s
  /\ mapid s' = mapid s.

(** [a] is a non-null user address whose page has an SPT entry. *)
Definition mapped_user_byte {env : Collaborators} (s : state) (a : Z) : bool :=
  negb (a =? 0) && is_user_vaddr a && bool_decide (is_Some (get_spte a s)).

(** The bytes [uaddr .. uaddr + len - 1] of a buffer. *)
Definition in_buffer (uaddr len a : Z) : Prop := uaddr <= a < uaddr + len.

(** The page of [addr] has an SPT entry satisfying [P]. *)
Definition page_is {env : Collaborators} (s : state) (addr : Z)
    (P : spt_entry -> Prop) : Prop :=
  exists e, get_spte addr s = Some e /\ P e.

(** The SPT entry [sys_mmap] asks for, for page [i] of a file of [len] bytes
    reopened as [file]. *)
Definition mapped_entry (file len i : Z) : spt_entry :=
  mk_spte FILE_MAPPED true false file (i * PGSIZE)
          (Z.min PGSIZE (len - i * PGSIZE))
          (PGSIZE - Z.min PGSIZE (len - i * PGSIZE)).

(** The registrations of [n] consecutive pages from [upage] under [id]. *)
Fixpoint mapping_pages (n : nat) (id upage file : Z) : list mmap_entry :=
  match n with
  | O => []
  | S k => mk_mm id upage file :: mapping_pages k id (upage + 1) file
  end.

(** Number of pages of a file of [len] bytes. *)
Definition page_count (len : Z) : Z := (len + PGSIZE - 1) / PGSIZE.

(** [open ("ab")], the path at 0x08048000. *)
Definition open_state : @state (recording_env 4096) :=
  process_with 4096 [786431; 32840]
    (mem_store (push_words no_memory user_esp [SYS_OPEN; 134512640])
               134512640 [97; 98; 0]).

Definition open_frame : intr_frame := mk_frame user_esp 0.

(** [halt ()]. *)
Definition halt_frame : intr_frame := mk_frame user_esp 0.
Definition halt_state : @state (recording_env 4096) :=
  process_with 4096 [786431] (push_words no_memory user_esp [SYS_HALT]).

(** A request issued with a null stack pointer. *)
Definition null_esp_frame : intr_frame := mk_frame 0 0.

(** [write (1, 0x08048000, 2)]. *)
Definition write_frame : intr_frame := mk_frame user_esp 0.
Definition write_state : @state (recording_env 4096) :=
  process_with 4096 [786431; 32840]
    (mem_store (push_words no_memory user_esp [SYS_WRITE; 1; 134512640; 2])
               134512640 [97; 98; 0]).

(** [exit (7)]. *)
Definition exit_frame : intr_frame := mk_frame user_esp 0.
Definition exit_request_state : @state (recording_env 4096) :=
  process_with 4096 [786431] (push_words no_memory user_esp [SYS_EXIT; 7]).

(** A request with the number 99, which names no system call. *)
Definition unknown_frame : intr_frame := mk_frame user_esp 5.
Definition unknown_state : @state (recording_env 4096) :=
  process_with 4096 [786431] (push_words no_memory user_esp [99; 1; 2; 3]).

(** A process about to map its 5000-byte file at 0x10000000. *)
Definition mmap_ok_state : @state (recording_env 5000) :=
  process_with 5000 [786431] no_memory.

(** * Properties *)

Section Facts.

Context {env : Collaborators}.

Implicit Types (s : state) (f : intr_frame).

(** ** The exit path *)

Lemma sys_exit_eq {A} status s :
  sys_exit (A := A) status s = Exited (exit_state status s).
Proof. reflexivity. Qed.

(** Writing pages back changes the outside world and nothing else. *)
Lemma write_back_world m s : write_back m s = set_world (world (write_back m s)) s.
Proof.
  unfold write_back. destruct (spt s !! mm_upage m) as [e|]; [|by destruct s].
  destruct (resident e && pagedir_is_dirty (mm_upage m) (world s)); by destruct s.
Qed.

Lemma write_back_pages_world l s :
  write_back_pages l s = set_world (world (write_back_pages l s)) s.
Proof.
  revert s. induction l as [|m l IH]; intros s; [by destruct s|].
  change (write_back_pages (m :: l) s) with (write_back_pages l (write_back m s)).
  rewrite (IH (write_back m s)) at 1. rewrite (write_back_world m s) at 2.
  by destruct s.
Qed.

(** Pages that are not resident are not written back. *)
Lemma write_back_pages_idle l s :
  (forall m e, m ∈ l -> spt s !! mm_upage m = Some e -> resident e = false) ->
  write_back_pages l s = s.
Proof.
  revert s. induction l as [|m l IH]; intros s Hl; [done|].
  change (write_back_pages (m :: l) s) with (write_back_pages l (write_back m s)).
  assert (write_back m s = s) as ->.
  { unfold write_back. destruct (spt s !! mm_upage m) as [e|] eqn:E; [|done].
    by rewrite (Hl m e (list_elem_of_here _ _) E). }
  apply IH. intros m' e Hm. apply Hl. by apply list_elem_of_further.
Qed.

Lemma unmap_keeps_rest map s :
  file_descriptors (unmap map s) = file_descriptors s
  /\ exit_status (unmap map s) = exit_status s
  /\ console (unmap map s) = console s.
Proof.
  unfold unmap. cbv zeta.
  rewrite (write_back_pages_world
             (filter (fun m => mapped_under map m = true) (mmap_list s)) s).
  done.
Qed.

Lemma unmap_each_keeps_rest ids s :
  file_descriptors (unmap_each ids s) = file_descriptors s
  /\ exit_status (unmap_each ids s) = exit_status s
  /\ console (unmap_each ids s) = console s.
Proof.
  induction ids as [|i ids IH]; [done|].
  change (unmap_each (i :: ids) s) with (unmap i (unmap_each ids s)).
  destruct (unmap_keeps_rest i (unmap_each ids s)) as (-> & -> & ->).
  exact IH.
Qed.

(** A process without mappings has nothing to write back. *)
Lemma process_cleanup_no_mappings s :
  mmap_list s = [] -> process_cleanup s = set_spt ∅ s.
Proof. intros E. unfold process_cleanup. by rewrite E. Qed.

(** [close_all] is one [file_close] per descriptor, front to back. *)
Lemma close_all_foldl l w :
  close_all l w = foldl (fun w' d => file_close (file_pointer d) w') w l.
Proof. revert w. induction l as [|d l IH]; intros w; [done|]. apply IH. Qed.

(** Unmapping by id leaves no registration under that id, and never brings
    one back. *)
Lemma unmap_each_registrations ids s m :
  m ∈ mmap_list (unmap_each ids s) -> m ∈ mmap_list s /\ mm_mapid m ∉ ids.
Proof.
  revert m. induction ids as [|i ids IH]; intros m.
  - intros Hm. split; [done|]. apply not_elem_of_nil.
  - change (unmap_each (i :: ids) s) with (unmap i (unmap_each ids s)).
    unfold unmap at 1. simpl. rewrite list_elem_of_filter.
    intros [Hne Hin]. destruct (IH _ Hin) as [Hs Hni]. split; [done|].
    rewrite not_elem_of_cons. split; [|done].
    unfold mapped_under in Hne. intros E. rewrite E, Z.eqb_refl in Hne. done.
Qed.

Lemma process_cleanup_no_mapping s : mmap_list (process_cleanup s) = [].
Proof.
  unfold process_cleanup. simpl.
  destruct (mmap_list (unmap_each (mm_mapid <$> mmap_list s) s)) as [|m l] eqn:E; [done|].
  assert (Hm : m ∈ mmap_list (unmap_each (mm_mapid <$> mmap_list s) s))
    by (rewrite E; apply list_elem_of_here).
  apply unmap_each_registrations in Hm as [Hin Hni].
  exfalso. apply Hni. apply list_elem_of_fmap. by exists m.
Qed.

Lemma exit_state_facts status s :
  file_descriptors (exit_state status s) = []
  /\ mmap_list (exit_state status s) = []
  /\ spt (exit_state status s) = ∅
  /\ exit_status (exit_state status s) = status.
Proof.
  unfold exit_state.
  split_and!; try apply process_cleanup_no_mapping; unfold process_cleanup; simpl;
    try done;
    match goal with
    | |- context [unmap_each ?ids ?t] =>
        destruct (unmap_each_keeps_rest ids t) as (E1 & E2 & E3)
    end; by rewrite ?E1, ?E2, ?E3.
Qed.

Lemma exit_state_status status s : exit_status (exit_state status s) = status.
Proof. apply exit_state_facts. Qed.

(** C8: [sys_exit status] terminates the process having closed the file of
    every open descriptor, released every memory mapping and recorded
    [status] as the exit status.  By the time the per-process cleanup starts
    (state [s0]) the descriptor table is empty, the outside world has seen
    one [file_close] for the file of each descriptor, front to back, and
    nothing else, and [status] is recorded; the cleanup then works on the
    mappings and pages the process had.  In the final state [s'] no
    descriptor, no registration of a mapping and no page of the SPT is left
    and the exit status is [status]; a process without mappings leaves the
    outside world as the closing of its files left it. *)
Theorem sys_exit_releases_and_records {A} (status : Z) s :
  exists s0 s',
    sys_exit (A := A) status s = Exited s'
    /\ s' = process_cleanup s0
    /\ file_descriptors s0 = []
    /\ world s0 = foldl (fun w d => file_close (file_pointer d) w)
                        (world s) (file_descriptors s)
    /\ exit_status s0 = status
    /\ mmap_list s0 = mmap_list s
    /\ spt s0 = spt s
    /\ file_descriptors s' = []
    /\ mmap_list s' = []
    /\ spt s' = ∅
    /\ exit_status s' = status
    /\ (mmap_list s = [] ->
        world s' = foldl (fun w d => file_close (file_pointer d) w)
                         (world s) (file_descriptors s)).
Proof.
  eexists _, (exit_state status s). split; [apply sys_exit_eq|].
  split; [reflexivity|].
  destruct (exit_state_facts status s) as (E1 & E2 & E3 & E4).
  split_and!; try done; try apply close_all_foldl.
  intros Hm. unfold exit_state. rewrite process_cleanup_no_mappings by done.
  apply close_all_foldl.
Qed.

(** ** Console descriptors *)

(** C10: [read] on descriptor 0 takes exactly one key from the keyboard,
    leaves user memory (hence the caller's buffer) as it was, and returns 0,
    whatever the buffer and the length. *)
Theorem sys_read_console_reads_one_key (buffer size : Z) s :
  exists s',
    sys_read 0 buffer size s = Ret 0 s'
    /\ keys_read s' = S (keys_read s)
    /\ umem s' = umem s.
Proof. eexists. split; [reflexivity|]. by simpl. Qed.

(** C3 (the code departs from it): [sys_read] on descriptor 0 acquires the
    file-system lock and returns to the dispatcher without releasing it. *)
Theorem sys_read_console_keeps_lock (buffer size : Z) s :
  exists s', sys_read 0 buffer size s = Ret 0 s' /\ filesystem_lock s' = true.
Proof. eexists. split; [reflexivity|]. by simpl. Qed.

Lemma sys_write_fd0 buffer size s :
  sys_write 0 buffer size s
  = Exited (exit_state (-1) (set_filesystem_lock false (set_filesystem_lock true s))).
Proof. reflexivity. Qed.

Lemma sys_read_fd1 buffer size s :
  sys_read 1 buffer size s
  = Exited (exit_state (-1) (set_filesystem_lock false (set_filesystem_lock true s))).
Proof. reflexivity. Qed.

Lemma sys_close_reserved fdn s :
  fdn < 2 -> sys_close fdn s = Exited (exit_state (-1) s).
Proof.
  intros H. unfold sys_close, bind.
  destruct (Z.ltb_spec fdn 2) as [_|]; [reflexivity|lia].
Qed.

(** C5: writing to descriptor 0, reading from descriptor 1 and closing
    descriptor 0 or 1 each terminate the process with exit status -1. *)
Theorem reserved_descriptor_misuse_terminates (buffer size : Z) s :
  terminated_with (-1) (sys_write 0 buffer size s)
  /\ terminated_with (-1) (sys_read 1 buffer size s)
  /\ terminated_with (-1) (sys_close 0 s)
  /\ terminated_with (-1) (sys_close 1 s).
Proof.
  rewrite sys_write_fd0, sys_read_fd1, !sys_close_reserved by lia.
  unfold terminated_with. rewrite !exit_state_status. done.
Qed.

(** ** The file-system lock on the other paths

    Everywhere else a handler that returns has released the lock it took. *)

Lemma bind_Ret_inv {A B} (m : M A) (k : A -> M B) s b s' :
  bind m k s = Ret b s' -> exists a s1, m s = Ret a s1 /\ k a s1 = Ret b s'.
Proof.
  unfold bind. destruct (m s) as [a s1|s1|s1|s1|] eqn:E; try done.
  intros H. by exists a, s1.
Qed.

Ltac invert_binds E :=
  repeat (let a := fresh "a" in let t := fresh "t" in let Ea := fresh "E" in
          apply bind_Ret_inv in E as (a & t & Ea & E)).

Lemma lock_release_Ret s (u : unit) s' :
  lock_release s = Ret u s' -> filesystem_lock s' = false.
Proof. by intros [= <- <-]. Qed.

Lemma sys_write_releases fdn buffer size s r s' :
  sys_write fdn buffer size s = Ret r s' -> filesystem_lock s' = false.
Proof.
  unfold sys_write. intros E. apply bind_Ret_inv in E as (u & s1 & _ & E).
  destruct (fdn =? 0); [done|]. destruct (fdn =? 1).
  - invert_binds E. injection E as <- <-. by eapply lock_release_Ret.
  - apply bind_Ret_inv in E as (d & s2 & _ & E). destruct d as [d|].
    + invert_binds E. injection E as <- <-. by eapply lock_release_Ret.
    + invert_binds E. injection E as <- <-. by eapply lock_release_Ret.
Qed.

Lemma sys_read_releases fdn buffer size s r s' :
  fdn <> 0 -> sys_read fdn buffer size s = Ret r s' -> filesystem_lock s' = false.
Proof.
  unfold sys_read. intros H0 E. apply bind_Ret_inv in E as (u & s1 & _ & E).
  destruct (Z.eqb_spec fdn 0) as [|_]; [done|]. destruct (fdn =? 1); [done|].
  apply bind_Ret_inv in E as (d & s2 & _ & E). destruct d as [d|].
  - invert_binds E. injection E as <- <-. by eapply lock_release_Ret.
  - invert_binds E. injection E as <- <-. by eapply lock_release_Ret.
Qed.

Lemma sys_create_releases fuel file size s r s' :
  sys_create fuel file size s = Ret r s' -> filesystem_lock s' = false.
Proof.
  unfold sys_create. intros E. invert_binds E. injection E as <- <-.
  by eapply lock_release_Ret.
Qed.

Lemma sys_remove_releases fuel file s r s' :
  sys_remove fuel file s = Ret r s' -> filesystem_lock s' = false.
Proof.
  unfold sys_remove. intros E. invert_binds E. injection E as <- <-.
  by eapply lock_release_Ret.
Qed.

Lemma sys_open_releases fuel file s r s' :
  sys_open fuel file s = Ret r s' -> filesystem_lock s' = false.
Proof.
  unfold sys_open. intros E.
  do 4 (let a := fresh "a" in let t := fresh "t" in let Ea := fresh "E" in
        apply bind_Ret_inv in E as (a & t & Ea & E)).
  destruct (_ =? 0); invert_binds E; injection E as <- <-;
    by eapply lock_release_Ret.
Qed.

Lemma sys_close_releases fdn s u s' :
  sys_close fdn s = Ret u s' -> filesystem_lock s' = false.
Proof.
  unfold sys_close. intros E.
  do 2 (let a := fresh "a" in let t := fresh "t" in let Ea := fresh "E" in
        apply bind_Ret_inv in E as (a & t & Ea & E)).
  match goal with d : option file_descriptor |- _ => destruct d as [d|] end; [|done].
  invert_binds E. by eapply lock_release_Ret.
Qed.

Lemma sys_seek_tell_filesize_release fdn position s d :
  get_fdstruct_in (file_descriptors s) fdn = Some d ->
  on_return (sys_seek fdn position s) (fun _ s' => filesystem_lock s' = false)
  /\ on_return (sys_tell fdn s) (fun _ s' => filesystem_lock s' = false)
  /\ on_return (sys_filesize fdn s) (fun _ s' => filesystem_lock s' = false).
Proof.
  intros Hd. unfold sys_seek, sys_tell, sys_filesize, bind, get_fdstruct, gets.
  by rewrite Hd.
Qed.

(** ** Descriptors that are not open *)

Lemma sys_read_unopened fdn buffer size s :
  get_fdstruct_in (file_descriptors s) fdn = None -> fdn <> 0 -> fdn <> 1 ->
  sys_read fdn buffer size s
  = Ret (-1) (set_filesystem_lock false (set_filesystem_lock true s)).
Proof.
  intros Hn H0 H1. unfold sys_read, bind, lock_acquire, modify, get_fdstruct, gets.
  destruct (Z.eqb_spec fdn 0) as [|_]; [done|].
  destruct (Z.eqb_spec fdn 1) as [|_]; [done|].
  simpl. by rewrite Hn.
Qed.

Lemma sys_write_unopened fdn buffer size s :
  get_fdstruct_in (file_descriptors s) fdn = None -> fdn <> 0 -> fdn <> 1 ->
  sys_write fdn buffer size s
  = Ret (-1) (set_filesystem_lock false (set_filesystem_lock true s)).
Proof.
  intros Hn H0 H1. unfold sys_write, bind, lock_acquire, modify, get_fdstruct, gets.
  destruct (Z.eqb_spec fdn 0) as [|_]; [done|].
  destruct (Z.eqb_spec fdn 1) as [|_]; [done|].
  simpl. by rewrite Hn.
Qed.

Lemma sys_close_unopened fdn s :
  get_fdstruct_in (file_descriptors s) fdn = None ->
  sys_close fdn s = Exited (exit_state (-1) s).
Proof.
  intros Hn. destruct (Z.ltb_spec fdn 2) as [Hlt|Hge].
  - by apply sys_close_reserved.
  - unfold sys_close, bind, get_fdstruct, gets.
    destruct (Z.ltb_spec fdn 2) as [|_]; [lia|]. simpl. by rewrite Hn.
Qed.

(** C6: for a descriptor that is not open and is neither 0 nor 1, [read]
    and [write] return -1, [seek] returns having done nothing, [tell]
    returns the word -1 and [filesize] returns -1, none of them terminating
    the process and all of them leaving the descriptor table as it was;
    [close] touches no descriptor itself: it is the same computation as
    [sys_exit (-1)] started in the unchanged state, and the process is
    terminated with exit status -1. *)
Theorem unopened_descriptor_fails (fdn buffer size position : Z) s :
  get_fdstruct_in (file_descriptors s) fdn = None -> fdn <> 0 -> fdn <> 1 ->
  (exists s', sys_read fdn buffer size s = Ret (-1) s'
              /\ file_descriptors s' = file_descriptors s)
  /\ (exists s', sys_write fdn buffer size s = Ret (-1) s'
                 /\ file_descriptors s' = file_descriptors s)
  /\ sys_seek fdn position s = Ret tt s
  /\ sys_tell fdn s = Ret (wrap32 (-1)) s
  /\ sys_filesize fdn s = Ret (-1) s
  /\ sys_close fdn s = sys_exit (-1) s
  /\ terminated_with (-1) (sys_close fdn s).
Proof.
  intros Hn H0 H1. split_and!.
  - eexists. split; [by apply sys_read_unopened|done].
  - eexists. split; [by apply sys_write_unopened|done].
  - unfold sys_seek, bind, get_fdstruct, gets. by rewrite Hn.
  - unfold sys_tell, bind, get_fdstruct, gets. by rewrite Hn.
  - unfold sys_filesize, bind, get_fdstruct, gets. by rewrite Hn.
  - by rewrite sys_close_unopened, sys_exit_eq.
  - rewrite sys_close_unopened by done. apply exit_state_status.
Qed.

Lemma sys_mmap_unopened fdn addr s :
  get_fdstruct_in (file_descriptors s) fdn = None ->
  sys_mmap fdn addr s = KernelPanic s.
Proof. intros Hn. unfold sys_mmap, bind, get_fdstruct, gets. by rewrite Hn. Qed.

(** ** What the validation steps may change *)

Lemma untouched_refl s : untouched s s.
Proof. by destruct s. Qed.

Lemma untouched_trans s s1 s2 : untouched s s1 -> untouched s1 s2 -> untouched s s2.
Proof.
  unfold untouched. intros H1 H2. destruct s, s1, s2. unfold set_spt in *. simpl in *.
  congruence.
Qed.

Lemma untouched_set_spt t s : untouched s (set_spt t s).
Proof. reflexivity. Qed.

Lemma untouched_umem s s1 : untouched s s1 -> umem s1 = umem s.
Proof. by intros ->. Qed.

Lemma benign_weaken {A} s s1 (o : outcome A) :
  untouched s s1 -> benign s1 o -> benign s o.
Proof.
  intros H. destruct o as [a s'|s'| | |]; simpl; try done.
  - by apply untouched_trans.
  - intros (s2 & H2 & ->). exists s2. split; [|done]. by eapply untouched_trans.
Qed.

Lemma benign_ret {A} (a : A) s : benign s (ret a s).
Proof. apply untouched_refl. Qed.

Lemma benign_sys_exit {A} s : benign s (sys_exit (A := A) (-1) s).
Proof. rewrite sys_exit_eq. exists s. split; [apply untouched_refl|done]. Qed.

Lemma benign_bind {A B} (m : M A) (k : A -> M B) s :
  benign s (m s) ->
  (forall a s', m s = Ret a s' -> benign s' (k a s')) ->
  benign s (bind m k s).
Proof.
  unfold bind. intros Hm Hk. destruct (m s) as [a s'|s'| | |] eqn:E; try done.
  eapply benign_weaken; [exact Hm|]. by apply Hk.
Qed.

Lemma benign_gets {A} (g : state -> A) s : benign s (gets g s).
Proof. apply untouched_refl. Qed.

Lemma benign_check_and_pin_addr addr esp_ s :
  benign s (check_and_pin_addr addr esp_ s).
Proof.
  unfold check_and_pin_addr. apply benign_bind; [apply benign_gets|].
  intros [e|] s' [= <- <-].
  - apply benign_bind; [apply untouched_set_spt|]. intros. apply benign_ret.
  - destruct (is_stack_growth addr esp_); [|apply benign_sys_exit].
    apply benign_bind.
    + unfold spt_stack_growth. destruct (frame_for_stack _); simpl;
        [apply untouched_set_spt|apply untouched_refl].
    + intros [] s' _; [apply benign_ret|apply benign_sys_exit].
Qed.

Lemma benign_for_addr_loop n addr bound (body : Z -> M unit) s :
  (forall a s', benign s' (body a s')) ->
  benign s (for_addr_loop n addr bound body s).
Proof.
  intros Hb. revert addr s. induction n as [|n IH]; intros addr s.
  - apply benign_ret.
  - change (for_addr_loop (S n) addr bound body)
      with (if addr <? bound
            then bind (body addr) (fun _ => for_addr_loop n (addr + 1) bound body)
            else ret tt).
    destruct (addr <? bound); [|apply benign_ret].
    apply benign_bind; [apply Hb|]. intros. apply IH.
Qed.

Lemma benign_valid_uaddr uaddr len s : benign s (valid_uaddr uaddr len s).
Proof.
  apply benign_for_addr_loop. intros a s'.
  apply benign_bind; [apply benign_gets|]. intros spte s'' _.
  destruct (_ || _); [apply benign_sys_exit|apply benign_ret].
Qed.

Lemma benign_check_and_pin_buffer uaddr len esp_ write s :
  benign s (check_and_pin_buffer uaddr len esp_ write s).
Proof.
  apply benign_for_addr_loop. intros a s'.
  apply benign_bind.
  { destruct (negb _); [apply benign_sys_exit|apply benign_ret]. }
  intros _ s1 _. apply benign_bind; [apply benign_check_and_pin_addr|].
  intros [e|] s2 _; [|apply benign_ret].
  destruct (_ && _); [apply benign_sys_exit|apply benign_ret].
Qed.

Lemma benign_Ret_untouched {A} s (o : outcome A) a s' :
  benign s o -> o = Ret a s' -> untouched s s'.
Proof. by intros H ->. Qed.

Lemma fatal_weaken {A} s s1 (o : outcome A) :
  untouched s s1 -> fatal s1 o -> fatal s o.
Proof.
  intros H (s2 & H2 & ->). exists s2. split; [|done]. by eapply untouched_trans.
Qed.

Lemma fatal_bind {A B} (m : M A) (k : A -> M B) s :
  fatal s (m s) -> fatal s (bind m k s).
Proof. intros (s1 & H & E). exists s1. split; [done|]. unfold bind. by rewrite E. Qed.

Lemma fatal_bind_benign {A B} (m : M A) (k : A -> M B) s :
  benign s (m s) ->
  (forall a s', m s = Ret a s' -> untouched s s' -> fatal s' (k a s')) ->
  fatal s (bind m k s).
Proof.
  unfold bind. intros Hm Hk. destruct (m s) as [a s'|s'| | |] eqn:E; try done.
  - eapply fatal_weaken; [exact Hm|]. by apply Hk.
  - destruct Hm as (s1 & H1 & ->). by exists s1.
Qed.

Lemma fatal_sys_exit {A} s : fatal s (sys_exit (A := A) (-1) s).
Proof. exists s. split; [apply untouched_refl|apply sys_exit_eq]. Qed.

(** ** Words on the user stack *)

Lemma wrap32_range z : 0 <= wrap32 z < 4294967296.
Proof. unfold wrap32. apply Z.mod_pos_bound. lia. Qed.

Lemma wrap32_small z : 0 <= z < 4294967296 -> wrap32 z = z.
Proof. unfold wrap32. intros H. by apply Z.mod_small. Qed.

Lemma wrap32_add_l a b : wrap32 (wrap32 a + b) = wrap32 (a + b).
Proof. unfold wrap32. apply Zplus_mod_idemp_l. Qed.

Lemma mem32_wrap_add m a b : mem32 m (wrap32 a + b) = mem32 m (a + b).
Proof.
  unfold mem32. rewrite <- !(Z.add_assoc (wrap32 a)), !wrap32_add_l.
  by rewrite !Z.add_assoc.
Qed.

Lemma mem32_range m a : 0 <= mem32 m a < 4294967296.
Proof. apply wrap32_range. Qed.

Lemma get_syscall_arg_loop_spec n ptr s :
  benign s (get_syscall_arg_loop ptr n s)
  /\ forall a s', get_syscall_arg_loop ptr n s = Ret a s' ->
       forall i, (i < n)%nat -> arg a i = mem32 (umem s) (ptr + 4 * Z.of_nat i).
Proof.
  revert ptr s. induction n as [|n IH]; intros ptr s.
  - split; [apply benign_ret|]. intros a s' _ i Hi. lia.
  - change (get_syscall_arg_loop ptr (S n))
      with (bind (check_and_pin_addr ptr 4) (fun _ =>
            bind (load32 ptr) (fun v =>
            bind (get_syscall_arg_loop (wrap32 (ptr + 4)) n) (fun rest =>
            ret (v :: rest))))).
    split.
    + apply benign_bind; [apply benign_check_and_pin_addr|]. intros _ s1 _.
      apply benign_bind; [apply benign_gets|]. intros v s2 _.
      apply benign_bind; [apply IH|]. intros. apply benign_ret.
    + intros a s' E.
      apply bind_Ret_inv in E as (spte & s1 & E1 & E).
      apply bind_Ret_inv in E as (v & s2 & E2 & E).
      apply bind_Ret_inv in E as (rest & s3 & E3 & E).
      injection E as <- <-. injection E2 as <- <-.
      pose proof (benign_Ret_untouched _ _ _ _
                    (benign_check_and_pin_addr ptr 4 s) E1) as Hu.
      apply untouched_umem in Hu.
      intros [|i] Hi.
      * change (arg (mem32 (umem s1) ptr :: rest) 0) with (mem32 (umem s1) ptr).
        rewrite Hu. f_equal. lia.
      * change (arg (mem32 (umem s1) ptr :: rest) (S i)) with (arg rest i).
        destruct (IH (wrap32 (ptr + 4)) s1) as [_ Hrest].
        rewrite (Hrest _ _ E3 i) by lia.
        rewrite mem32_wrap_add, Hu. f_equal. lia.
Qed.

Lemma get_syscall_arg_spec n f s :
  benign s (get_syscall_arg f n s)
  /\ forall a s', get_syscall_arg f n s = Ret a s' ->
       forall i, (i < n)%nat -> arg a i = stack_arg s f (Z.of_nat i).
Proof.
  unfold get_syscall_arg.
  destruct (get_syscall_arg_loop_spec n (wrap32 (esp f + 4)) s) as [Hb Hv].
  split; [done|]. intros a s' E i Hi. rewrite (Hv _ _ E i Hi).
  unfold stack_arg. rewrite mem32_wrap_add. f_equal. lia.
Qed.

Lemma get_syscall_type_spec f s :
  benign s (get_syscall_type f s)
  /\ forall t s', get_syscall_type f s = Ret t s' -> t = request_type s f.
Proof.
  unfold get_syscall_type. split.
  - apply benign_bind; [apply benign_valid_uaddr|]. intros _ s1 _.
    apply benign_bind; [apply benign_gets|]. intros. apply benign_ret.
  - intros t s' E.
    apply bind_Ret_inv in E as (u & s1 & E1 & E).
    apply bind_Ret_inv in E as (v & s2 & E2 & E).
    injection E as <- <-. injection E2 as <- <-.
    pose proof (benign_Ret_untouched _ _ _ _ (benign_valid_uaddr (esp f) 4 s) E1) as Hu.
    unfold request_type. by rewrite (untouched_umem _ _ Hu).
Qed.

(** An argument slot whose page has no SPT entry is accepted or refused on
    the verdict of the stack-growth rule at the constant 4, whatever the
    user stack pointer is. *)
Lemma get_syscall_arg_refuses n f s :
  get_spte (wrap32 (esp f + 4)) s = None ->
  is_stack_growth (wrap32 (esp f + 4)) 4 = false ->
  get_syscall_arg f (S n) s = Exited (exit_state (-1) s).
Proof.
  intros Hn Hsg. unfold get_syscall_arg. cbn [get_syscall_arg_loop].
  unfold bind at 1. unfold check_and_pin_addr, bind at 1, gets.
  by rewrite Hn, Hsg.
Qed.

(** ** Pointer arguments that are null or outside user space *)

Lemma check_and_pin_buffer_invalid uaddr len esp_ write s :
  is_valid_user_addr uaddr = false ->
  0 <= uaddr -> 0 < len -> uaddr + len < 4294967296 ->
  check_and_pin_buffer uaddr len esp_ write s = Exited (exit_state (-1) s).
Proof.
  intros Hinv H0 Hlen Hwrap. unfold check_and_pin_buffer, for_addr.
  rewrite wrap32_small by lia.
  replace (uaddr + len - uaddr) with len by lia.
  destruct (Z.to_nat len) as [|k] eqn:Ek; [lia|].
  cbn [for_addr_loop].
  destruct (Z.ltb_spec uaddr (uaddr + len)) as [_|]; [|lia].
  unfold bind at 1 2. by rewrite Hinv.
Qed.

Lemma valid_uaddr_invalid ptr s :
  is_valid_user_addr ptr = false -> 0 <= ptr < 4294967295 ->
  valid_uaddr ptr 1 s = Exited (exit_state (-1) s).
Proof.
  intros Hinv Hr. unfold valid_uaddr, for_addr.
  rewrite wrap32_small by lia.
  replace (ptr + 1 - ptr) with 1 by lia.
  change (Z.to_nat 1) with 1%nat. cbn [for_addr_loop].
  destruct (Z.ltb_spec ptr (ptr + 1)) as [_|]; [|lia].
  unfold bind at 1 2, gets.
  unfold is_valid_user_addr in Hinv.
  destruct (ptr =? 0); [done|]. simpl in Hinv. by rewrite Hinv.
Qed.

Lemma valid_string_invalid fuel str s :
  fuel <> 0%nat ->
  is_valid_user_addr str = false -> 0 <= str < 4294967295 ->
  valid_string fuel str s = Exited (exit_state (-1) s).
Proof.
  intros Hf Hinv Hr. destruct fuel as [|k]; [done|].
  unfold valid_string. cbn [valid_string_loop]. unfold bind at 1.
  by rewrite valid_uaddr_invalid.
Qed.

Lemma benign_check_and_pin_string_loop fuel str esp_ s l :
  mem_cstring fuel (umem s) str = Some l ->
  benign s (check_and_pin_string_loop fuel str esp_ s).
Proof.
  revert str s l. induction fuel as [|k IH]; intros str s l; [done|].
  cbn [mem_cstring check_and_pin_string_loop]. intros Hc.
  apply benign_bind; [apply benign_gets|]. intros c s1 [= <- <-].
  destruct (umem s (wrap32 str) =? 0); [apply benign_ret|].
  destruct (mem_cstring k (umem s) (wrap32 (str + 1))) as [l'|] eqn:El; [|done].
  apply benign_bind; [apply benign_check_and_pin_addr|].
  intros spte s1 E1.
  pose proof (benign_Ret_untouched _ _ _ _
                (benign_check_and_pin_addr (wrap32 (str + 1)) esp_ s) E1) as Hu.
  apply (IH _ _ l'). by rewrite (untouched_umem _ _ Hu).
Qed.

Lemma benign_check_and_pin_string fuel str esp_ s :
  is_Some (mem_cstring fuel (umem s) str) ->
  benign s (check_and_pin_string fuel str esp_ s).
Proof.
  intros [l Hl]. unfold check_and_pin_string.
  apply benign_bind; [apply benign_check_and_pin_addr|].
  intros spte s1 E1.
  pose proof (benign_Ret_untouched _ _ _ _
                (benign_check_and_pin_addr str esp_ s) E1) as Hu.
  apply (benign_check_and_pin_string_loop _ _ _ _ l).
  by rewrite (untouched_umem _ _ Hu).
Qed.

Lemma mem_cstring_fuel fuel m str : is_Some (mem_cstring fuel m str) -> fuel <> 0%nat.
Proof. destruct fuel; [by intros [? ?]|done]. Qed.

(** The dispatcher on a read or write request whose buffer is bad. *)
Lemma buffer_request_fatal f s (write : bool) (k : list Z -> M intr_frame) :
  is_valid_user_addr (stack_arg s f 1) = false ->
  0 < stack_arg s f 2 -> stack_arg s f 1 + stack_arg s f 2 < 4294967296 ->
  fatal s (bind (get_syscall_arg f 3)
                (fun a => bind (check_and_pin_buffer (arg a 1) (arg a 2) (esp f) write)
                               (fun _ => k a)) s).
Proof.
  intros Hinv Hlen Hwrap.
  destruct (get_syscall_arg_spec 3 f s) as [Hb Hv].
  apply fatal_bind_benign; [done|]. intros a s1 E Hu.
  apply fatal_bind.
  rewrite (Hv _ _ E 1%nat), (Hv _ _ E 2%nat) by lia.
  rewrite check_and_pin_buffer_invalid; try done.
  - exists s1. split; [apply untouched_refl|done].
  - apply mem32_range.
Qed.

(** The dispatcher on a request whose path or command-line string is bad;
    [handler] stands for [sys_create], [sys_remove], [sys_open] or
    [sys_exec], each of which starts with [valid_string]. *)
Lemma string_request_fatal {R} fuel f s n (handler : list Z -> M R)
    (k : list Z -> R -> M intr_frame) :
  (0 < n)%nat ->
  is_valid_user_addr (stack_arg s f 0) = false ->
  stack_arg s f 0 < 4294967295 ->
  is_Some (mem_cstring fuel (umem s) (stack_arg s f 0)) ->
  (forall a s', fatal s' (valid_string fuel (arg a 0) s') -> fatal s' (handler a s')) ->
  fatal s (bind (get_syscall_arg f n)
                (fun a => bind (check_and_pin_string fuel (arg a 0) (esp f))
                               (fun _ => bind (handler a) (k a))) s).
Proof.
  intros Hn Hinv Hlast Hend Hh.
  destruct (get_syscall_arg_spec n f s) as [Hb Hv].
  apply fatal_bind_benign; [done|]. intros a s1 E Hu.
  rewrite (Hv _ _ E 0%nat) by lia. change (Z.of_nat 0) with 0.
  apply fatal_bind_benign.
  { apply benign_check_and_pin_string. by rewrite (untouched_umem _ _ Hu). }
  intros _ s2 _ Hu2. apply fatal_bind.
  specialize (Hh a s2). rewrite (Hv _ _ E 0%nat) in Hh by lia. apply Hh.
  change (Z.of_nat 0) with 0.
  rewrite valid_string_invalid; try done.
  - exists s2. split; [apply untouched_refl|done].
  - by eapply mem_cstring_fuel.
  - pose proof (mem32_range (umem s) (esp f + 4 * (0 + 1))).
    unfold stack_arg in *. lia.
Qed.

(** ** Console descriptors, through the dispatcher *)

Lemma benign_or_dead_bind {A B} (m : M A) (k : A -> M B) s :
  benign s (m s) ->
  (forall a s', m s = Ret a s' -> untouched s s' -> terminated_with (-1) (k a s')) ->
  terminated_with (-1) (bind m k s).
Proof.
  unfold bind. intros Hm Hk. destruct (m s) as [a s'|s'| | |] eqn:E; try done.
  - by apply Hk.
  - destruct Hm as (s1 & _ & ->). apply exit_state_status.
Qed.

Lemma dead_bind {A B} (m : M A) (k : A -> M B) s :
  terminated_with (-1) (m s) -> terminated_with (-1) (bind m k s).
Proof. unfold bind. by destruct (m s). Qed.

(** A write request on descriptor 0, a read request on descriptor 1 and a
    close request on descriptor 0 or 1 terminate the process with status -1
    on every path through the dispatcher. *)
Lemma reserved_descriptor_request_terminates (fuel : nat) f s :
  (request_type s f = SYS_WRITE /\ to_int32 (stack_arg s f 0) = 0)
  \/ (request_type s f = SYS_READ /\ to_int32 (stack_arg s f 0) = 1)
  \/ (request_type s f = SYS_CLOSE /\ to_int32 (stack_arg s f 0) < 2) ->
  terminated_with (-1) (syscall_handler fuel f s).
Proof.
  intros H. unfold syscall_handler.
  destruct (get_syscall_type_spec f s) as [Hb Ht].
  apply benign_or_dead_bind; [exact Hb|]. intros type s1 E1 Hu1.
  rewrite (Ht _ _ E1). clear Hb Ht E1 type.
  apply benign_or_dead_bind; [apply benign_check_and_pin_addr|]. intros _ s2 _ Hu2.
  apply dead_bind.
  pose proof (untouched_trans _ _ _ Hu1 Hu2) as Hu.
  assert (Harg : stack_arg s2 f 0 = stack_arg s f 0)
    by (unfold stack_arg; by rewrite (untouched_umem _ _ Hu)).
  rewrite <- Harg in H. clear Harg Hu Hu1 Hu2 s1.
  destruct H as [[-> Hfd]|[[-> Hfd]|[-> Hfd]]];
    cbv [SYS_CREATE SYS_REMOVE SYS_OPEN SYS_CLOSE SYS_EXIT SYS_WRITE SYS_READ
         Z.eqb Pos.eqb].
  - destruct (get_syscall_arg_spec 3 f s2) as [Hb Hv].
    apply benign_or_dead_bind; [done|]. intros a s3 E _.
    apply benign_or_dead_bind; [apply benign_check_and_pin_buffer|]. intros _ s4 _ _.
    apply dead_bind. rewrite (Hv _ _ E 0%nat) by lia. change (Z.of_nat 0) with 0.
    rewrite Hfd, sys_write_fd0. apply exit_state_status.
  - destruct (get_syscall_arg_spec 3 f s2) as [Hb Hv].
    apply benign_or_dead_bind; [done|]. intros a s3 E _.
    apply benign_or_dead_bind; [apply benign_check_and_pin_buffer|]. intros _ s4 _ _.
    apply dead_bind. rewrite (Hv _ _ E 0%nat) by lia. change (Z.of_nat 0) with 0.
    rewrite Hfd, sys_read_fd1. apply exit_state_status.
  - destruct (get_syscall_arg_spec 1 f s2) as [Hb Hv].
    apply benign_or_dead_bind; [done|]. intros a s3 E _.
    apply dead_bind. rewrite (Hv _ _ E 0%nat) by lia. change (Z.of_nat 0) with 0.
    rewrite sys_close_reserved by done. apply exit_state_status.
Qed.

Lemma bad_pointer_request_umem fuel f s s' :
  umem s' = umem s ->
  bad_pointer_request fuel f s' = bad_pointer_request fuel f s
  /\ request_type s' f = request_type s f.
Proof.
  intros E. unfold bad_pointer_request, request_type, stack_arg. by rewrite E.
Qed.

(** C1 (as amended): a request whose pointer argument is null or outside
    user space -- the buffer of a read or write of non-zero length whose end
    does not wrap around the address space, or the string of create, remove,
    open or exec that does not start at the last address 0xffffffff --
    terminates the process with exit status -1, and until the exit path runs
    nothing but the supplemental page table has changed: no file-system call
    was made, and descriptors, mappings and user memory are as they were.
    Nothing is stated about the address argument of mmap. *)
Theorem bad_pointer_request_terminates (fuel : nat) f s :
  bad_pointer_request fuel f s = true ->
  exists s1,
    untouched s s1
    /\ syscall_handler fuel f s = sys_exit (-1) s1
    /\ terminated_with (-1) (syscall_handler fuel f s).
Proof.
  intros H.
  enough (fatal s (syscall_handler fuel f s)) as (s1 & Hu & E).
  { exists s1. rewrite E. split_and!; [done|done|apply exit_state_status]. }
  unfold syscall_handler.
  destruct (get_syscall_type_spec f s) as [Hb Ht].
  apply fatal_bind_benign; [exact Hb|]. intros type s1 E1 Hu1.
  rewrite (Ht _ _ E1). clear Hb Ht E1 type.
  apply fatal_bind_benign; [apply benign_check_and_pin_addr|]. intros _ s2 _ Hu2.
  apply fatal_bind.
  pose proof (untouched_trans _ _ _ Hu1 Hu2) as Hu.
  destruct (bad_pointer_request_umem fuel f s s2 (untouched_umem _ _ Hu)) as [Hbad Hty].
  rewrite <- Hbad in H. rewrite <- Hty. clear Hbad Hty Hu Hu1 Hu2 s s1.
  unfold bad_pointer_request in H.
  destruct ((request_type s2 f =? SYS_READ) || (request_type s2 f =? SYS_WRITE)) eqn:Erw.
  - apply andb_prop in H as [H Hwrap]. apply andb_prop in H as [Hinv Hlen].
    apply negb_true_iff in Hinv. apply Z.ltb_lt in Hlen, Hwrap.
    apply orb_prop in Erw as [Et|Et]; apply Z.eqb_eq in Et; rewrite Et;
      cbv [SYS_CREATE SYS_REMOVE SYS_OPEN SYS_CLOSE SYS_EXIT SYS_WRITE SYS_READ
           Z.eqb Pos.eqb];
      by apply buffer_request_fatal.
  - destruct ((request_type s2 f =? SYS_CREATE) || (request_type s2 f =? SYS_REMOVE)
              || (request_type s2 f =? SYS_OPEN) || (request_type s2 f =? SYS_EXEC))
      eqn:Estr; [|done].
    apply andb_prop in H as [H Hend]. apply andb_prop in H as [Hinv Hlast].
    apply negb_true_iff in Hinv. apply Z.ltb_lt in Hlast.
    apply bool_decide_eq_true in Hend.
    repeat (apply orb_prop in Estr as [Estr|Estr]); apply Z.eqb_eq in Estr; rewrite Estr;
      cbv [SYS_CREATE SYS_REMOVE SYS_OPEN SYS_CLOSE SYS_EXIT SYS_WRITE SYS_READ
           SYS_FILESIZE SYS_EXEC Z.eqb Pos.eqb];
      (apply (string_request_fatal fuel f s2); [lia|done|done|done|]);
      intros a s'; apply fatal_bind.
Qed.

End Facts.

(** * The system calls on explicit requests *)

(** C1 (as stated, refuted): four requests that carry a pointer argument
    which is null or outside user space and that do not terminate the
    process.  [mmap (2, NULL)] returns to the caller with -1 in [eax].
    [read (2, NULL, 0)], a buffer of length zero, returns 0 after the file
    was read.  [write (7, 0xc0000000, 0x40000000)], a buffer whose end wraps
    around the address space, returns -1.  [create (0xffffffff, 0)], a string
    at the last address, on a page that has an SPT entry: the range check of
    [valid_uaddr] wraps and looks at nothing, [filesys_create] is called, and
    the kernel then fails its assertion on the path. *)
Lemma bad_pointer_requests_not_terminated :
  (request_type mmap_null_state mmap_null_frame = SYS_MMAP
   /\ stack_arg mmap_null_state mmap_null_frame 1 = 0
   /\ is_valid_user_addr (stack_arg mmap_null_state mmap_null_frame 1) = false
   /\ on_return (syscall_handler 8 mmap_null_frame mmap_null_state)
        (fun f' s' => eax f' = wrap32 (-1) /\ file_descriptors s' = [mk_fd 2 100 []]))
  /\ (request_type read_empty_state read_empty_frame = SYS_READ
      /\ stack_arg read_empty_state read_empty_frame 1 = 0
      /\ stack_arg read_empty_state read_empty_frame 2 = 0
      /\ is_valid_user_addr (stack_arg read_empty_state read_empty_frame 1) = false
      /\ on_return (syscall_handler 8 read_empty_frame read_empty_state)
           (fun f' s' => eax f' = 0 /\ world s' = [FileRead 100 0]))
  /\ (request_type write_wrap_state write_wrap_frame = SYS_WRITE
      /\ stack_arg write_wrap_state write_wrap_frame 1 = 3221225472
      /\ stack_arg write_wrap_state write_wrap_frame 2 = 1073741824
      /\ is_valid_user_addr (stack_arg write_wrap_state write_wrap_frame 1) = false
      /\ on_return (syscall_handler 8 write_wrap_frame write_wrap_state)
           (fun f' s' => eax f' = wrap32 (-1)))
  /\ (request_type create_last_state create_last_frame = SYS_CREATE
      /\ stack_arg create_last_state create_last_frame 0 = 4294967295
      /\ is_valid_user_addr (stack_arg create_last_state create_last_frame 0) = false
      /\ match syscall_handler 8 create_last_frame create_last_state with
         | KernelPanic s' => world s' = [FilesysCreate [] 0]
         | _ => False
         end).
Proof. vm_compute. done. Qed.

(** [read (2, NULL, 10)] is such a request. *)
Lemma bad_pointer_request_terminates_witness :
  exists s1,
    untouched read_null_state s1
    /\ syscall_handler 8 read_null_frame read_null_state = sys_exit (-1) s1
    /\ terminated_with (-1) (syscall_handler 8 read_null_frame read_null_state).
Proof.
  apply (bad_pointer_request_terminates 8 read_null_frame read_null_state).
  vm_compute. reflexivity.
Defined.

(** Unmapping writes the resident page of the mapping back to the file at
    its offset before the page is dropped; on exit the descriptor's file is
    closed first and the page is written back by the cleanup. *)
Lemma mapped_page_written_back :
  on_return (sys_munmap 0 mapped_state)
    (fun _ s' => world s' = [FileWriteAt 101 [104; 105] 0]
                 /\ spt s' !! 65536 = None /\ mmap_list s' = [])
  /\ on_exit (sys_exit (A := unit) 0 mapped_state)
       (fun s' => world s' = [FileClose 100; FileWriteAt 101 [104; 105] 0]
                  /\ spt s' !! 65536 = None /\ mmap_list s' = []).
Proof. vm_compute. done. Qed.

(** C2 (the code departs from it): after the dispatch of [remove ("a")] has
    returned normally, the page holding the path, pinned while the string was
    validated, is still pinned; only the stack page was unpinned. *)
Theorem remove_leaves_path_pinned :
  (pinned <$> spt remove_state !! 32840) = Some false
  /\ on_return (syscall_handler 8 remove_frame remove_state)
       (fun f' s' =>
          (pinned <$> spt s' !! 32840) = Some true
          /\ (pinned <$> spt s' !! 786431) = Some false).
Proof. vm_compute. done. Qed.

(** C4 (the code departs from it): [mmap] on a descriptor that is not open
    reads through the null descriptor pointer and faults in the kernel; it
    does not return -1. *)
Theorem sys_mmap_unopened_faults :
  get_fdstruct_in (file_descriptors plain_state) 7 = None
  /\ sys_mmap 7 268435456 plain_state = KernelPanic plain_state.
Proof. split; [reflexivity|]. by apply sys_mmap_unopened. Qed.

(** Descriptor 7 in a process whose only descriptor is 2. *)
Lemma unopened_descriptor_fails_witness :
  (exists s', sys_read 7 0 0 plain_state = Ret (-1) s'
              /\ file_descriptors s' = file_descriptors plain_state)
  /\ (exists s', sys_write 7 0 0 plain_state = Ret (-1) s'
                 /\ file_descriptors s' = file_descriptors plain_state)
  /\ sys_seek 7 0 plain_state = Ret tt plain_state
  /\ sys_tell 7 plain_state = Ret (wrap32 (-1)) plain_state
  /\ sys_filesize 7 plain_state = Ret (-1) plain_state
  /\ sys_close 7 plain_state = sys_exit (-1) plain_state
  /\ terminated_with (-1) (sys_close 7 plain_state).
Proof.
  apply (unopened_descriptor_fails 7 0 0 0 plain_state);
    [reflexivity|discriminate|discriminate].
Defined.

(** C7 (the code departs from it): when the entry for the second page of a
    mapping cannot be created, [mmap] returns -1 at once; the entry it made
    for the first page stays in the SPT, still registered, and the mapid
    counter is not advanced. *)
Theorem sys_mmap_keeps_partial_mapping :
  spt mmap_clash_state !! 65536 = None
  /\ mmap_list mmap_clash_state = []
  /\ on_return (sys_mmap 2 268435456 mmap_clash_state)
       (fun r s' =>
          r = -1
          /\ (spte_tag <$> spt s' !! 65536) = Some FILE_MAPPED
          /\ mmap_list s' = [mk_mm 0 65536 101]
          /\ mapid s' = mapid mmap_clash_state).
Proof. vm_compute. done. Qed.

(** * Further properties of syscall.c *)

Section Coverage.

Context {env : Collaborators}.

Implicit Types (s : state) (f : intr_frame).

(** ** Looking descriptors up *)

Lemma get_fdstruct_in_Some l n d :
  get_fdstruct_in l n = Some d -> d ∈ l /\ fd d = n.
Proof.
  induction l as [|x l IH]; [done|]. cbn [get_fdstruct_in].
  destruct (Z.eqb_spec (fd x) n) as [E|_].
  - intros [= <-]. split; [apply list_elem_of_here|done].
  - intros H. destruct (IH H) as [Hin Hfd]. split; [by apply list_elem_of_further|done].
Qed.

Lemma get_fdstruct_in_None l n :
  get_fdstruct_in l n = None <-> forall d, d ∈ l -> fd d <> n.
Proof.
  induction l as [|x l IH]; cbn [get_fdstruct_in].
  - split; [|done]. intros _ d Hd. by apply not_elem_of_nil in Hd.
  - destruct (Z.eqb_spec (fd x) n) as [E|Hne].
    + split; [done|]. intros H. exfalso. apply (H x); [apply list_elem_of_here|done].
    + rewrite IH. split.
      * intros H d Hd. apply elem_of_cons in Hd as [->|Hd]; [done|by apply H].
      * intros H d Hd. apply H. by apply list_elem_of_further.
Qed.

(** X1: [get_fdstruct] answers with a descriptor of the table that carries
    the number asked for, and answers NULL exactly when no descriptor of the
    table carries it. *)
Theorem get_fdstruct_finds_number (fdn : Z) s :
  on_return (get_fdstruct fdn s) (fun r s' =>
    s' = s
    /\ match r with
       | Some d => d ∈ file_descriptors s /\ fd d = fdn
       | None => forall d, d ∈ file_descriptors s -> fd d <> fdn
       end).
Proof.
  unfold get_fdstruct, gets. simpl. split; [done|].
  destruct (get_fdstruct_in (file_descriptors s) fdn) as [d|] eqn:E.
  - by apply get_fdstruct_in_Some.
  - by apply get_fdstruct_in_None.
Qed.

(** ** What the checks leave behind when they pass *)

Ltac split_bind E :=
  let a := fresh "a" in
  let t := fresh "t" in
  let Ea := fresh "E" in
  apply bind_Ret_inv in E as (a & t & Ea & E).

Lemma for_addr_loop_same n addr bound (body : Z -> M unit) s u s' :
  (forall a t v t', body a t = Ret v t' -> t' = t) ->
  for_addr_loop n addr bound body s = Ret u s' -> s' = s.
Proof.
  intros Hb. revert addr s. induction n as [|n IH]; intros addr s.
  - by intros [= <-].
  - cbn [for_addr_loop]. destruct (addr <? bound); [|by intros [= <-]].
    intros E. split_bind E. apply IH in E. apply Hb in E0. congruence.
Qed.

Lemma valid_uaddr_same uaddr len s u s' :
  valid_uaddr uaddr len s = Ret u s' -> s' = s.
Proof.
  apply for_addr_loop_same. intros a t v t'.
  unfold bind, gets. destruct (_ || _); [done|]. by intros [= <-].
Qed.

Lemma valid_string_loop_same fuel ptr s u s' :
  valid_string_loop fuel ptr s = Ret u s' -> s' = s.
Proof.
  revert ptr s. induction fuel as [|k IH]; intros ptr s; [done|].
  cbn [valid_string_loop]. intros E. split_bind E. split_bind E.
  apply valid_uaddr_same in E0 as ->. injection E1 as <- <-.
  destruct (_ =? 0); [by apply valid_uaddr_same in E|by apply IH in E].
Qed.

(** What a successful or failed [sys_open] has done, step by step. *)
Lemma sys_open_Ret fuel file s r s' :
  sys_open fuel file s = Ret r s' ->
  exists path fo w,
    mem_cstring fuel (umem s) file = Some path
    /\ filesys_open path (world s) = (fo, w)
    /\ ((fo = 0 /\ r = -1
         /\ s' = set_filesystem_lock false (set_world w (set_filesystem_lock true s)))
        \/ (fo <> 0 /\ r = fd_index s
            /\ s' = set_filesystem_lock false
                      (set_file_descriptors
                         (file_descriptors s
                          ++ [mk_fd (fd_index s) fo (strlcpy_strlen path)])
                         (set_fd_index (to_int32 (fd_index s + 1))
                            (set_world w (set_filesystem_lock true s)))))).
Proof.
  unfold sys_open. intros E. split_bind E. split_bind E.
  apply valid_string_loop_same in E0 as ->. injection E1 as <- <-.
  split_bind E. unfold load_cstring in E0. simpl in E0.
  destruct (mem_cstring fuel (umem s) file) as [path|] eqn:Ep; [|done].
  injection E0 as <- <-.
  split_bind E. unfold call_world in E0. simpl in E0.
  destruct (filesys_open path (world s)) as [fo w] eqn:Eo. injection E0 as <- <-.
  exists path, fo, w. split_and!; [done|done|].
  destruct (Z.eqb_spec fo 0) as [->|Hne].
  - left. by injection E as <- <-.
  - right. by injection E as <- <-.
Qed.

Lemma get_fdstruct_in_app_fresh l d n :
  (forall x, x ∈ l -> fd x <> n) -> fd d = n ->
  get_fdstruct_in (l ++ [d]) n = Some d.
Proof.
  intros Hl Hd. induction l as [|x l IH]; cbn [app get_fdstruct_in].
  - by destruct (Z.eqb_spec (fd d) n).
  - destruct (Z.eqb_spec (fd x) n) as [E|_].
    + exfalso. apply (Hl x); [apply list_elem_of_here|done].
    + apply IH. intros y Hy. apply Hl. by apply list_elem_of_further.
Qed.

Lemma remove_fd_app_fresh l d n :
  (forall x, x ∈ l -> fd x <> n) -> fd d = n -> remove_fd (l ++ [d]) n = l.
Proof.
  intros Hl Hd. induction l as [|x l IH]; cbn [app remove_fd].
  - by destruct (Z.eqb_spec (fd d) n).
  - destruct (Z.eqb_spec (fd x) n) as [E|_].
    + exfalso. apply (Hl x); [apply list_elem_of_here|done].
    + f_equal. apply IH. intros y Hy. apply Hl. by apply list_elem_of_further.
Qed.

Lemma to_int32_small z : -2147483648 <= z < 2147483648 -> to_int32 z = z.
Proof.
  intros H. unfold to_int32, wrap32. cbv zeta.
  destruct (Z.le_gt_cases 0 z).
  - rewrite Z.mod_small by lia. destruct (Z.ltb_spec z 2147483648); lia.
  - assert (Hm : z mod 4294967296 = z + 4294967296)
      by (symmetry; apply (Z.mod_unique z 4294967296 (-1)); lia).
    rewrite Hm. destruct (Z.ltb_spec (z + 4294967296) 2147483648); lia.
Qed.

Lemma fd_table_fresh s d : fd_table_ok s -> d ∈ file_descriptors s -> fd d <> fd_index s.
Proof.
  intros (_ & _ & Hall) Hd. rewrite Forall_forall in Hall. specialize (Hall d Hd). lia.
Qed.

(** X2: a successful [open] in a process whose descriptor numbers are
    distinct, at least 2 and below the counter hands out a number that is at
    least 2 and that no open descriptor carries; the new descriptor is then
    found under it, the old ones stay as they were, the counter has grown,
    and the table is again in order.  A failed [open] (-1) changes neither the
    table nor the counter.  Either way the lock is free afterwards. *)
Theorem sys_open_hands_out_fresh_number (fuel : nat) (file : Z) s :
  fd_table_ok s -> fd_index s < 2147483647 ->
  when_returns (sys_open fuel file s) (fun r s' =>
    fd_table_ok s'
    /\ filesystem_lock s' = false
    /\ ((r = -1 /\ file_descriptors s' = file_descriptors s
         /\ fd_index s' = fd_index s)
        \/ (2 <= r
            /\ get_fdstruct_in (file_descriptors s) r = None
            /\ (exists d, get_fdstruct_in (file_descriptors s') r = Some d
                          /\ file_descriptors s' = file_descriptors s ++ [d])
            /\ fd_index s < fd_index s'))).
Proof.
  intros Hok Hmax. destruct (sys_open fuel file s) as [r s'| | | |] eqn:E; try done.
  cbn [when_returns].
  apply sys_open_Ret in E as (path & fo & w & _ & _ & [(_ & -> & ->)|(Hfo & -> & ->)]).
  - split_and!; [exact Hok|done|]. by left.
  - pose proof Hok as (Hnd & H2 & Hall). cbn.
    rewrite to_int32_small by lia.
    assert (Hfresh : forall x, x ∈ file_descriptors s -> fd x <> fd_index s)
      by (intros x; by apply fd_table_fresh).
    split_and!.
    + unfold fd_table_ok. cbn. rewrite fmap_app. split_and!.
      * apply NoDup_app. split_and!; [done| |apply NoDup_singleton].
        intros n Hn Hn'. apply list_elem_of_fmap in Hn as (x & -> & Hx).
        apply list_elem_of_singleton in Hn'. cbn in Hn'. by apply (Hfresh x).
      * lia.
      * apply Forall_app. split.
        -- eapply Forall_impl; [exact Hall|]. cbn. intros x Hx. lia.
        -- apply Forall_singleton. cbn. lia.
    + done.
    + right. split_and!; [done| | |lia].
      * by apply get_fdstruct_in_None.
      * eexists. split; [|done]. by apply get_fdstruct_in_app_fresh.
Qed.

(** ** Closing descriptors *)

Lemma sys_close_open_Ret fdn s d :
  get_fdstruct_in (file_descriptors s) fdn = Some d -> 2 <= fdn ->
  sys_close fdn s
  = Ret tt (set_filesystem_lock false
              (set_file_descriptors (remove_fd (file_descriptors s) fdn)
                 (set_world (file_close (file_pointer d) (world s))
                    (set_filesystem_lock true s)))).
Proof.
  intros Hd H2. unfold sys_close, bind, get_fdstruct, gets.
  destruct (Z.ltb_spec fdn 2) as [|_]; [lia|]. simpl. by rewrite Hd.
Qed.

Lemma remove_fd_elem l n x : x ∈ remove_fd l n -> x ∈ l.
Proof.
  induction l as [|y l IH]; cbn [remove_fd]; [done|].
  destruct (fd y =? n).
  - apply list_elem_of_further.
  - rewrite !elem_of_cons. intros [->|H]; [by left|right; by apply IH].
Qed.

Lemma remove_fd_NoDup l n : NoDup (fd <$> l) -> NoDup (fd <$> remove_fd l n).
Proof.
  induction l as [|y l IH]; cbn [remove_fd]; [done|].
  rewrite fmap_cons, NoDup_cons. intros [Hy Hl].
  destruct (fd y =? n); [done|].
  rewrite fmap_cons, NoDup_cons. split; [|by apply IH].
  intros Hin. apply Hy. apply list_elem_of_fmap in Hin as (x & -> & Hx).
  apply list_elem_of_fmap. exists x. split; [done|]. by eapply remove_fd_elem.
Qed.

Lemma remove_fd_gone l n :
  NoDup (fd <$> l) -> get_fdstruct_in (remove_fd l n) n = None.
Proof.
  induction l as [|y l IH]; cbn [remove_fd]; [done|].
  rewrite fmap_cons, NoDup_cons. intros [Hy Hl].
  destruct (Z.eqb_spec (fd y) n) as [E|Hne].
  - apply get_fdstruct_in_None. intros d Hd Hfd. apply Hy.
    apply list_elem_of_fmap. exists d. split; [congruence|done].
  - cbn [get_fdstruct_in]. destruct (Z.eqb_spec (fd y) n); [done|]. by apply IH.
Qed.

Lemma remove_fd_others l n n' :
  n' <> n -> get_fdstruct_in (remove_fd l n) n' = get_fdstruct_in l n'.
Proof.
  intros Hne. induction l as [|y l IH]; cbn [remove_fd get_fdstruct_in]; [done|].
  destruct (Z.eqb_spec (fd y) n) as [E|_].
  - destruct (Z.eqb_spec (fd y) n'); [congruence|done].
  - cbn [get_fdstruct_in]. by destruct (fd y =? n').
Qed.

(** X3: [close] on an open descriptor of a process whose table is in order
    returns, has closed that descriptor's file, and has taken the descriptor
    out of the table: its number is no longer found, every other number is
    found as before, the counter and the order of the table are kept and the
    lock is free again. *)
Theorem sys_close_removes_descriptor (fdn : Z) s d :
  fd_table_ok s ->
  get_fdstruct_in (file_descriptors s) fdn = Some d ->
  exists s',
    sys_close fdn s = Ret tt s'
    /\ fd_table_ok s'
    /\ get_fdstruct_in (file_descriptors s') fdn = None
    /\ (forall n, n <> fdn ->
          get_fdstruct_in (file_descriptors s') n
          = get_fdstruct_in (file_descriptors s) n)
    /\ world s' = file_close (file_pointer d) (world s)
    /\ fd_index s' = fd_index s
    /\ filesystem_lock s' = false.
Proof.
  intros (Hnd & H2 & Hall) Hd.
  destruct (get_fdstruct_in_Some _ _ _ Hd) as [Hin Hfd].
  rewrite Forall_forall in Hall. pose proof (Hall d Hin) as Hr.
  eexists. split; [apply sys_close_open_Ret; [done|lia]|]. cbn.
  split_and!; try done.
  - unfold fd_table_ok. cbn. split_and!; [by apply remove_fd_NoDup|done|].
    apply Forall_forall. intros x Hx. apply Hall. by eapply remove_fd_elem.
  - by apply remove_fd_gone.
  - intros n Hn. by apply remove_fd_others.
Qed.

(** X4: in a process whose descriptor table is in order and whose counter
    has not reached the largest [int], opening a file successfully and
    closing the descriptor that [open] returned brings the descriptor table
    back to what it was. *)
Theorem open_then_close_restores_table (fuel : nat) (file : Z) s :
  fd_table_ok s -> fd_index s < 2147483647 ->
  when_returns (sys_open fuel file s) (fun r s1 =>
    r <> -1 ->
    exists s2, sys_close r s1 = Ret tt s2
               /\ file_descriptors s2 = file_descriptors s).
Proof.
  intros Hok Hmax. destruct (sys_open fuel file s) as [r s1| | | |] eqn:E; try done.
  cbn [when_returns]. intros Hr.
  apply sys_open_Ret in E as (path & fo & w & _ & _ & [(_ & -> & ->)|(Hfo & -> & ->)]);
    [done|].
  assert (Hfresh : forall x, x ∈ file_descriptors s -> fd x <> fd_index s)
    by (intros x; by apply fd_table_fresh).
  destruct Hok as (_ & H2 & _).
  eexists. split.
  - apply sys_close_open_Ret; [|done]. cbn. by apply get_fdstruct_in_app_fresh.
  - cbn. by apply remove_fd_app_fresh.
Qed.

(** ** Handlers that leave the tables alone *)

Lemma same_tables_refl s : same_tables s s.
Proof. by unfold same_tables. Qed.

(** X5: [read], [write], [seek], [tell], [filesize], [create], [remove],
    [exec] and [wait] never change the descriptor table or its counter, the
    SPT, or the mappings and their counter, whatever their arguments. *)
Theorem io_handlers_keep_tables (fuel : nat) (a b c : Z) s :
  when_returns (sys_read a b c s) (fun _ s' => same_tables s s')
  /\ when_returns (sys_write a b c s) (fun _ s' => same_tables s s')
  /\ when_returns (sys_seek a b s) (fun _ s' => same_tables s s')
  /\ when_returns (sys_tell a s) (fun _ s' => same_tables s s')
  /\ when_returns (sys_filesize a s) (fun _ s' => same_tables s s')
  /\ when_returns (sys_create fuel a b s) (fun _ s' => same_tables s s')
  /\ when_returns (sys_remove fuel a s) (fun _ s' => same_tables s s')
  /\ when_returns (sys_exec fuel a s) (fun _ s' => same_tables s s')
  /\ when_returns (sys_wait a s) (fun _ s' => same_tables s s').
Proof.
  split_and!.
  - unfold sys_read, bind, lock_acquire, lock_release, modify, get_fdstruct, gets,
      input_getc, call_world, ret.
    destruct (a =? 0); [done|]. destruct (a =? 1); [done|]. cbn.
    destruct (get_fdstruct_in _ _); [|done]. cbn. by destruct (file_read _ _ _).
  - unfold sys_write, bind, lock_acquire, lock_release, modify, get_fdstruct, gets,
      putbuf, call_world, ret.
    destruct (a =? 0); [done|]. destruct (a =? 1); [done|]. cbn.
    destruct (get_fdstruct_in _ _); [|done]. cbn. by destruct (file_write _ _ _).
  - unfold sys_seek, bind, get_fdstruct, gets. by destruct (get_fdstruct_in _ _).
  - unfold sys_tell, bind, get_fdstruct, gets. by destruct (get_fdstruct_in _ _).
  - unfold sys_filesize, bind, get_fdstruct, gets. by destruct (get_fdstruct_in _ _).
  - destruct (sys_create fuel a b s) as [r s'| | | |] eqn:E; try done. cbn.
    unfold sys_create in E. split_bind E. split_bind E.
    apply valid_string_loop_same in E0 as ->. injection E1 as <- <-.
    split_bind E. unfold load_cstring in E0. cbn in E0.
    destruct (mem_cstring _ _ _); [|done]. injection E0 as <- <-.
    split_bind E. unfold call_world in E0. cbn in E0.
    destruct (filesys_create _ _ _). injection E0 as <- <-.
    by injection E as <- <-.
  - destruct (sys_remove fuel a s) as [r s'| | | |] eqn:E; try done. cbn.
    unfold sys_remove in E. split_bind E. split_bind E.
    apply valid_string_loop_same in E0 as ->. injection E1 as <- <-.
    split_bind E. unfold load_cstring in E0. cbn in E0.
    destruct (mem_cstring _ _ _); [|done]. injection E0 as <- <-.
    split_bind E. unfold call_world in E0. cbn in E0.
    destruct (filesys_remove _ _). injection E0 as <- <-.
    by injection E as <- <-.
  - destruct (sys_exec fuel a s) as [r s'| | | |] eqn:E; try done. cbn.
    unfold sys_exec in E. split_bind E.
    apply valid_string_loop_same in E0 as ->.
    split_bind E. unfold load_cstring in E0. cbn in E0.
    destruct (mem_cstring _ _ _); [|done]. injection E0 as <- <-.
    unfold call_world in E. destruct (process_execute _ _).
    by injection E as <- <-.
  - unfold sys_wait, call_world. by destruct (process_wait _ _).
Qed.

(** ** [valid_uaddr] and [valid_string] *)

Lemma valid_uaddr_loop_eq n addr s :
  for_addr_loop n addr (addr + Z.of_nat n)
    (fun a => bind (gets (get_spte a)) (fun spte =>
       if (a =? 0) || negb (is_user_vaddr a) || negb (bool_decide (is_Some spte))
       then sys_exit (-1) else ret tt)) s
  = if forallb (mapped_user_byte s) (seqZ addr (Z.of_nat n))
    then Ret tt s else sys_exit (-1) s.
Proof.
  revert addr. induction n as [|n IH]; intros addr; [done|].
  cbn [for_addr_loop]. destruct (Z.ltb_spec addr (addr + Z.of_nat (S n))) as [_|]; [|lia].
  rewrite seqZ_cons by lia. cbn [forallb].
  replace (Z.pred (Z.of_nat (S n))) with (Z.of_nat n) by lia.
  replace (addr + Z.of_nat (S n)) with (Z.succ addr + Z.of_nat n) by lia.
  unfold bind at 1 2, gets. unfold mapped_user_byte at 1.
  destruct (addr =? 0); [done|]. destruct (is_user_vaddr addr); [|done].
  destruct (bool_decide (is_Some (get_spte addr s))); [|done]. cbn.
  replace (addr + 1) with (Z.succ addr) by lia. apply IH.
Qed.

Lemma valid_uaddr_range uaddr len s :
  0 <= uaddr -> 0 <= len -> uaddr + len < 4294967296 ->
  valid_uaddr uaddr len s
  = if forallb (mapped_user_byte s) (seqZ uaddr len)
    then Ret tt s else sys_exit (-1) s.
Proof.
  intros H0 Hl Hw. unfold valid_uaddr, for_addr.
  rewrite wrap32_small by lia. replace (uaddr + len - uaddr) with len by lia.
  rewrite <- (Z2Nat.id len) at 2 3 by lia. apply valid_uaddr_loop_eq.
Qed.

(** X6: on a range that does not wrap around the address space,
    [valid_uaddr] returns, with the state untouched, exactly when every byte
    of the range is a non-null user address on a page with an SPT entry;
    otherwise it terminates the process with status -1, again without having
    changed anything first.  (In particular an empty range always passes.) *)
Theorem valid_uaddr_decides (uaddr len : Z) s :
  0 <= uaddr -> 0 <= len -> uaddr + len < 4294967296 ->
  valid_uaddr uaddr len s
  = if forallb (mapped_user_byte s) (seqZ uaddr len)
    then Ret tt s else sys_exit (-1) s.
Proof. apply valid_uaddr_range. Qed.

Lemma valid_uaddr_byte ptr s u s' :
  0 <= ptr < 4294967295 ->
  valid_uaddr ptr 1 s = Ret u s' -> mapped_user_byte s ptr = true.
Proof.
  intros Hr. rewrite valid_uaddr_range by lia.
  rewrite seqZ_cons by lia. cbn [forallb].
  by destruct (mapped_user_byte s ptr).
Qed.

Lemma mapped_user_byte_below s a : mapped_user_byte s a = true -> a < PHYS_BASE.
Proof.
  unfold mapped_user_byte, is_user_vaddr. intros H.
  apply andb_prop in H as [H _]. apply andb_prop in H as [_ H]. by apply Z.ltb_lt.
Qed.

Lemma valid_string_loop_bytes fuel ptr s u s' :
  0 <= ptr < 4294967295 ->
  valid_string_loop fuel ptr s = Ret u s' ->
  exists l, mem_cstring fuel (umem s) ptr = Some l
            /\ forall i, 0 <= i <= Z.of_nat (length l) ->
                 mapped_user_byte s (ptr + i) = true.
Proof.
  revert ptr. induction fuel as [|k IH]; intros ptr Hr; [done|].
  cbn [valid_string_loop mem_cstring]. intros E. split_bind E. split_bind E.
  pose proof (valid_uaddr_byte _ _ _ _ Hr E0) as Hb.
  apply valid_uaddr_same in E0 as ->. injection E1 as <- <-.
  rewrite (wrap32_small ptr) in E |- * by lia.
  destruct (umem s ptr =? 0).
  - exists []. split; [done|]. cbn. intros i Hi. by replace (ptr + i) with ptr by lia.
  - pose proof (mapped_user_byte_below _ _ Hb) as Hlt. unfold PHYS_BASE in Hlt.
    rewrite (wrap32_small (ptr + 1)) in E |- * by lia.
    destruct (IH (ptr + 1) ltac:(lia) E) as (l & -> & Hl).
    eexists. split; [done|]. cbn [length]. intros i Hi.
    destruct (Z.eq_dec i 0) as [->|Hi0]; [by rewrite Z.add_0_r|].
    replace (ptr + i) with (ptr + 1 + (i - 1)) by lia. apply Hl. lia.
Qed.

(** X7: when [valid_string] returns it has changed nothing, the string ends
    within the bytes looked at, and every byte of it, terminator included,
    is a non-null user address on a page with an SPT entry. *)
Theorem valid_string_accepts_mapped_strings (fuel : nat) (str : Z) s :
  0 <= str < 4294967295 ->
  when_returns (valid_string fuel str s) (fun _ s' =>
    s' = s
    /\ exists l, mem_cstring fuel (umem s) str = Some l
                 /\ forall i, 0 <= i <= Z.of_nat (length l) ->
                      mapped_user_byte s (str + i) = true).
Proof.
  intros Hr. destruct (valid_string fuel str s) as [u s'| | | |] eqn:E; try done.
  cbn [when_returns]. unfold valid_string in E. split.
  - by eapply valid_string_loop_same.
  - by eapply valid_string_loop_bytes.
Qed.

(** ** Pinning and unpinning *)

Lemma unpin_entry_idem e : unpin_entry (unpin_entry e) = unpin_entry e.
Proof. done. Qed.

Lemma check_and_pin_addr_Ret addr esp_ s r s' :
  check_and_pin_addr addr esp_ s = Ret r s' ->
  r = get_spte addr s
  /\ exists e',
       s' = set_spt (<[pg_no addr := e']> (spt s)) s
       /\ pinned e' = true
       /\ match r with
          | Some e => writeable e' = writeable e
          | None => writeable e' = true
          end.
Proof.
  unfold check_and_pin_addr. intros E. split_bind E. injection E0 as <- <-.
  destruct (get_spte addr s) as [e|] eqn:Ee.
  - split_bind E. injection E as <- <-. injection E0 as <-.
    split; [done|]. by exists (load_and_pin e).
  - destruct (is_stack_growth addr esp_); [|done].
    split_bind E. unfold spt_stack_growth in E0.
    destruct (frame_for_stack (pg_no addr)); injection E0 as <- <-; [|done].
    injection E as <- <-. split; [done|]. by eexists.
Qed.

Lemma check_and_pin_addr_keeps addr esp_ s r s' (w : bool) a :
  check_and_pin_addr addr esp_ s = Ret r s' ->
  page_is s a (fun e => pinned e = true /\ (w = true -> writeable e = true)) ->
  page_is s' a (fun e => pinned e = true /\ (w = true -> writeable e = true)).
Proof.
  intros E (e & He & Hp & Hw).
  apply check_and_pin_addr_Ret in E as (-> & e' & -> & Hp' & Hr).
  unfold page_is, get_spte in *. cbn.
  destruct (Z.eq_dec (pg_no addr) (pg_no a)) as [Epg|Hne].
  - rewrite Epg, lookup_insert_eq. exists e'. split; [done|]. split; [done|].
    rewrite Epg, He in Hr. rewrite Hr. exact Hw.
  - rewrite lookup_insert_ne by done. by exists e.
Qed.

Lemma check_and_pin_buffer_loop n addr esp_ (w : bool) s u s' :
  for_addr_loop n addr (addr + Z.of_nat n)
    (fun a =>
       bind (if negb (is_valid_user_addr a) then sys_exit (-1) else ret tt) (fun _ =>
       bind (check_and_pin_addr a esp_) (fun spte =>
         match spte with
         | Some e => if w && negb (writeable e) then sys_exit (-1) else ret tt
         | None => ret tt
         end))) s = Ret u s' ->
  (forall a, page_is s a (fun e => pinned e = true /\ (w = true -> writeable e = true)) ->
             page_is s' a (fun e => pinned e = true /\ (w = true -> writeable e = true)))
  /\ forall a, addr <= a < addr + Z.of_nat n ->
       is_valid_user_addr a = true
       /\ page_is s' a (fun e => pinned e = true /\ (w = true -> writeable e = true)).
Proof.
  revert addr s. induction n as [|n IH]; intros addr s.
  - intros E. assert (s' = s) as -> by (unfold for_addr_loop, ret in E; congruence).
    split; [intros a Ha; exact Ha|]. intros a Ha. lia.
  - cbn [for_addr_loop].
    destruct (Z.ltb_spec addr (addr + Z.of_nat (S n))) as [_|]; [|lia].
    replace (addr + Z.of_nat (S n)) with (addr + 1 + Z.of_nat n) by lia.
    intros E.
    apply bind_Ret_inv in E as (u1 & t & Ebody & E).
    apply bind_Ret_inv in Ebody as (u2 & t0 & Evalid & Ebody).
    apply bind_Ret_inv in Ebody as (spte & t1 & Epin & Ebody).
    destruct (is_valid_user_addr addr) eqn:Ev; [|done]. injection Evalid as <- <-.
    assert (Hhere : page_is t addr
              (fun e => pinned e = true /\ (w = true -> writeable e = true))).
    { pose proof Epin as Epin'.
      apply check_and_pin_addr_Ret in Epin' as (-> & e' & -> & Hp' & Hr).
      destruct (get_spte addr s) as [e|] eqn:Ee.
      - destruct (w && negb (writeable e)) eqn:Ew; [done|]. injection Ebody as <- <-.
        exists e'. unfold get_spte. cbn. rewrite lookup_insert_eq.
        split; [done|]. split; [done|]. intros ->. rewrite Hr.
        by destruct (writeable e).
      - injection Ebody as <- <-.
        exists e'. unfold get_spte. cbn. rewrite lookup_insert_eq.
        split; [done|]. split; [done|]. by rewrite Hr. }
    assert (Ht : t = t1).
    { destruct spte as [e|]; [destruct (w && negb (writeable e)); [done|]|];
        by injection Ebody as <- <-. }
    subst t1. destruct (IH _ _ E) as [Hkeep Hnew].
    split.
    + intros a Ha. apply Hkeep. by eapply check_and_pin_addr_keeps.
    + intros a Ha. destruct (Z.eq_dec a addr) as [->|Hne].
      * split; [done|]. by apply Hkeep.
      * apply Hnew. lia.
Qed.

Lemma check_and_pin_buffer_Ret uaddr len esp_ (w : bool) s u s' :
  0 <= uaddr -> 0 <= len -> uaddr + len < 4294967296 ->
  check_and_pin_buffer uaddr len esp_ w s = Ret u s' ->
  forall a, in_buffer uaddr len a ->
    is_valid_user_addr a = true
    /\ page_is s' a (fun e => pinned e = true /\ (w = true -> writeable e = true)).
Proof.
  intros H0 Hl Hw E.
  unfold check_and_pin_buffer, for_addr in E.
  rewrite wrap32_small in E by lia.
  replace (uaddr + len - uaddr) with len in E by lia.
  rewrite <- (Z2Nat.id len) in E at 2 by lia.
  apply check_and_pin_buffer_loop in E as [_ Hnew].
  intros a Ha. apply Hnew. unfold in_buffer in Ha. lia.
Qed.

(** X8: when [check_and_pin_buffer] returns on a range that does not wrap
    around the address space, it has changed nothing but the SPT, every byte
    of the range is a non-null user address, and the page of every byte has
    an SPT entry that is pinned and, if the buffer is to be written into,
    writable. *)
Theorem check_and_pin_buffer_pins_every_byte (uaddr len esp_ : Z) (w : bool) s :
  0 <= uaddr -> 0 <= len -> uaddr + len < 4294967296 ->
  when_returns (check_and_pin_buffer uaddr len esp_ w s) (fun _ s' =>
    untouched s s'
    /\ forall a, in_buffer uaddr len a ->
         is_valid_user_addr a = true
         /\ page_is s' a (fun e => pinned e = true /\ (w = true -> writeable e = true))).
Proof.
  intros H0 Hl Hw.
  pose proof (benign_check_and_pin_buffer uaddr len esp_ w s) as Hb.
  destruct (check_and_pin_buffer uaddr len esp_ w s) as [u s'| | | |] eqn:E; try done.
  cbn [when_returns]. split; [exact Hb|]. by eapply check_and_pin_buffer_Ret.
Qed.

Lemma unpin_addr_Ret addr s :
  exists s1,
    unpin_addr addr s = Ret tt s1
    /\ untouched s s1
    /\ forall p, spt s1 !! p
                 = if decide (p = pg_no addr) then unpin_entry <$> spt s !! p
                   else spt s !! p.
Proof.
  unfold unpin_addr, bind, gets. destruct (get_spte addr s) as [e|] eqn:Ee.
  - eexists. split; [reflexivity|]. split; [apply untouched_set_spt|].
    intros p. cbn. unfold get_spte in Ee. case_decide as Hp.
    + subst p. by rewrite lookup_insert_eq, Ee.
    + by rewrite lookup_insert_ne.
  - exists s. split; [done|]. split; [apply untouched_refl|].
    intros p. unfold get_spte in Ee. case_decide as Hp; [|done]. subst p. by rewrite Ee.
Qed.

Lemma unpin_loop_Ret n addr s :
  exists s',
    for_addr_loop n addr (addr + Z.of_nat n) unpin_addr s = Ret tt s'
    /\ untouched s s'
    /\ (forall p, spt s' !! p = spt s !! p \/ spt s' !! p = unpin_entry <$> spt s !! p)
    /\ (forall a, addr <= a < addr + Z.of_nat n ->
          get_spte a s' = unpin_entry <$> get_spte a s)
    /\ (forall p, (forall a, addr <= a < addr + Z.of_nat n -> pg_no a <> p) ->
          spt s' !! p = spt s !! p).
Proof.
  revert addr s. induction n as [|n IH]; intros addr s.
  - exists s. split; [done|]. split; [apply untouched_refl|].
    split_and!; [by left|intros a Ha; lia|done].
  - cbn [for_addr_loop].
    destruct (Z.ltb_spec addr (addr + Z.of_nat (S n))) as [_|]; [|lia].
    replace (addr + Z.of_nat (S n)) with (addr + 1 + Z.of_nat n) by lia.
    destruct (unpin_addr_Ret addr s) as (s1 & E1 & Hu1 & H1).
    destruct (IH (addr + 1) s1) as (s' & E & Hu & Hany & Hin & Hout).
    exists s'. unfold bind. rewrite E1. split; [exact E|].
    split; [by eapply untouched_trans|].
    assert (Hidem : forall o : option spt_entry,
               unpin_entry <$> (unpin_entry <$> o) = unpin_entry <$> o)
      by (by intros [e|]).
    split_and!.
    + intros p. destruct (Hany p) as [-> | ->]; rewrite H1; case_decide;
        rewrite ?Hidem; auto.
    + intros a Ha. unfold get_spte in *.
      destruct (Z.eq_dec a addr) as [->|Hne].
      * destruct (Hany (pg_no addr)) as [-> | ->]; rewrite H1;
          (case_decide; [|done]); by rewrite ?Hidem.
      * rewrite Hin by lia. rewrite H1. case_decide as Hp; [|done].
        by rewrite Hp, Hidem.
    + intros p Hp. rewrite Hout by (intros a Ha; apply Hp; lia).
      rewrite H1. case_decide as Hq; [|done]. exfalso. apply (Hp addr); [lia|done].
Qed.

Lemma unpin_buffer_Ret uaddr len s :
  0 <= uaddr -> 0 <= len -> uaddr + len < 4294967296 ->
  exists s',
    unpin_buffer uaddr len s = Ret tt s'
    /\ untouched s s'
    /\ (forall a, in_buffer uaddr len a ->
          get_spte a s' = unpin_entry <$> get_spte a s)
    /\ (forall p, (forall a, in_buffer uaddr len a -> pg_no a <> p) ->
          spt s' !! p = spt s !! p).
Proof.
  intros H0 Hl Hw. unfold unpin_buffer, for_addr.
  rewrite wrap32_small by lia. replace (uaddr + len - uaddr) with len by lia.
  destruct (unpin_loop_Ret (Z.to_nat len) uaddr s) as (s' & E & Hu & _ & Hin & Hout).
  rewrite Z2Nat.id in E, Hin, Hout by lia.
  exists s'. split_and!; [done|done| |].
  - intros a Ha. apply Hin. exact Ha.
  - intros p Hp. apply Hout. exact Hp.
Qed.

(** X9: on a range that does not wrap around the address space
    [unpin_buffer] returns; it clears the pinned flag of the entry of every
    page the range touches and changes nothing else: entries of other pages,
    the set of pages in the SPT and the rest of the state are as before. *)
Theorem unpin_buffer_clears_range (uaddr len : Z) s :
  0 <= uaddr -> 0 <= len -> uaddr + len < 4294967296 ->
  exists s',
    unpin_buffer uaddr len s = Ret tt s'
    /\ untouched s s'
    /\ (forall a, in_buffer uaddr len a ->
          get_spte a s' = unpin_entry <$> get_spte a s)
    /\ (forall p, (forall a, in_buffer uaddr len a -> pg_no a <> p) ->
          spt s' !! p = spt s !! p).
Proof. apply unpin_buffer_Ret. Qed.

(** X10: a buffer of length 0 is never looked at: [check_and_pin_buffer] and
    [unpin_buffer] return at once with the state unchanged for every
    pointer, the null pointer and kernel addresses included. *)
Theorem empty_buffer_is_not_checked (uaddr esp_ : Z) (w : bool) s :
  0 <= uaddr < 4294967296 ->
  check_and_pin_buffer uaddr 0 esp_ w s = Ret tt s
  /\ unpin_buffer uaddr 0 s = Ret tt s.
Proof.
  intros Hr. unfold check_and_pin_buffer, unpin_buffer, for_addr.
  rewrite Z.add_0_r, wrap32_small, Z.sub_diag by lia. done.
Qed.

(** ** A read or write request, from pinning to unpinning *)

Lemma sys_write_keeps_spt fdn buffer size s r s' :
  sys_write fdn buffer size s = Ret r s' -> spt s' = spt s.
Proof.
  unfold sys_write, bind, lock_acquire, lock_release, modify, get_fdstruct, gets,
    putbuf, call_world, ret.
  destruct (fdn =? 0); [done|]. destruct (fdn =? 1); [by intros [= <- <-]|]. cbn.
  destruct (get_fdstruct_in _ _); [|by intros [= <- <-]]. cbn.
  destruct (file_write _ _ _). by intros [= <- <-].
Qed.

Lemma sys_read_keeps_spt fdn buffer size s r s' :
  sys_read fdn buffer size s = Ret r s' -> spt s' = spt s.
Proof.
  unfold sys_read, bind, lock_acquire, lock_release, modify, get_fdstruct, gets,
    input_getc, call_world, ret.
  destruct (fdn =? 0); [by intros [= <- <-]|]. destruct (fdn =? 1); [done|]. cbn.
  destruct (get_fdstruct_in _ _); [|by intros [= <- <-]]. cbn.
  destruct (file_read _ _ _). by intros [= <- <-].
Qed.

Lemma unpinned_after_buffer_call f s2 (w : bool) (call : list Z -> M Z) f1 s3 :
  stack_arg s2 f 1 + stack_arg s2 f 2 < 4294967296 ->
  (forall a t r t', call a t = Ret r t' -> spt t' = spt t) ->
  bind (get_syscall_arg f 3) (fun a =>
    bind (check_and_pin_buffer (arg a 1) (arg a 2) (esp f) w) (fun _ =>
    bind (call a) (fun r =>
    bind (unpin_buffer (arg a 1) (arg a 2)) (fun _ =>
    ret (set_eax (wrap32 r) f))))) s2 = Ret f1 s3 ->
  forall a, in_buffer (stack_arg s2 f 1) (stack_arg s2 f 2) a ->
    page_is s3 a (fun e => pinned e = false).
Proof.
  intros Hw Hcall E.
  apply bind_Ret_inv in E as (a & s5 & Ea & E).
  apply bind_Ret_inv in E as (u & s6 & Epin & E).
  apply bind_Ret_inv in E as (r & s7 & Ecall & E).
  apply bind_Ret_inv in E as (u' & s8 & Eun & E).
  injection E as <- <-.
  destruct (get_syscall_arg_spec 3 f s2) as [_ Hv].
  rewrite (Hv _ _ Ea 1%nat), (Hv _ _ Ea 2%nat) in Epin, Eun by lia.
  change (Z.of_nat 1) with 1 in *. change (Z.of_nat 2) with 2 in *.
  pose proof (mem32_range (umem s2) (esp f + 4 * (1 + 1))) as R1.
  pose proof (mem32_range (umem s2) (esp f + 4 * (2 + 1))) as R2.
  fold (stack_arg s2 f 1) in R1. fold (stack_arg s2 f 2) in R2.
  intros x Hx.
  assert (P1 : 0 <= stack_arg s2 f 1) by lia.
  assert (P2 : 0 <= stack_arg s2 f 2) by lia.
  destruct (check_and_pin_buffer_Ret _ _ _ _ _ _ _ P1 P2 Hw Epin x Hx)
    as (_ & e & He & _).
  destruct (unpin_buffer_Ret (stack_arg s2 f 1) (stack_arg s2 f 2) s7 P1 P2 Hw)
    as (s8' & Eun' & _ & Hin & _).
  assert (s8' = s8) as -> by congruence.
  exists (unpin_entry e). split; [|done].
  rewrite (Hin x Hx). unfold get_spte in *. by rewrite (Hcall _ _ _ _ Ecall), He.
Qed.

(** X11: when a read or write request returns to the caller, the page of
    every byte of its buffer has an SPT entry and that entry is not pinned
    (for a buffer whose end does not wrap around the address space). *)
Theorem buffer_unpinned_after_dispatch (fuel : nat) f s :
  request_type s f = SYS_WRITE \/ request_type s f = SYS_READ ->
  stack_arg s f 1 + stack_arg s f 2 < 4294967296 ->
  when_returns (syscall_handler fuel f s) (fun _ s' =>
    forall a, in_buffer (stack_arg s f 1) (stack_arg s f 2) a ->
      page_is s' a (fun e => pinned e = false)).
Proof.
  intros Hty Hw.
  destruct (syscall_handler fuel f s) as [f' s'| | | |] eqn:E; try done.
  cbn [when_returns]. unfold syscall_handler in E.
  apply bind_Ret_inv in E as (type & s1 & Et & E).
  apply bind_Ret_inv in E as (p0 & s2 & Ep & E).
  apply bind_Ret_inv in E as (f1 & s3 & Esw & E).
  apply bind_Ret_inv in E as (u & s4 & Eun & E). injection E as <- <-.
  destruct (get_syscall_type_spec f s) as [Hb Ht]. rewrite (Ht _ _ Et) in Esw.
  pose proof (benign_Ret_untouched _ _ _ _ Hb Et) as Hu1.
  pose proof (benign_Ret_untouched _ _ _ _
                (benign_check_and_pin_addr (esp f) (esp f) s1) Ep) as Hu2.
  pose proof (untouched_umem _ _ (untouched_trans _ _ _ Hu1 Hu2)) as Hm.
  assert (Ha1 : stack_arg s2 f 1 = stack_arg s f 1) by (unfold stack_arg; by rewrite Hm).
  assert (Ha2 : stack_arg s2 f 2 = stack_arg s f 2) by (unfold stack_arg; by rewrite Hm).
  rewrite <- Ha1, <- Ha2 in Hw |- *.
  assert (H3 : forall a, in_buffer (stack_arg s2 f 1) (stack_arg s2 f 2) a ->
                 page_is s3 a (fun e => pinned e = false)).
  { destruct Hty as [Hty|Hty]; rewrite Hty in Esw;
      cbv [SYS_CREATE SYS_REMOVE SYS_OPEN SYS_CLOSE SYS_EXIT SYS_WRITE SYS_READ
           Z.eqb Pos.eqb] in Esw.
    - apply (unpinned_after_buffer_call f s2 false
               (fun a => sys_write (to_int32 (arg a 0)) (arg a 1) (arg a 2)) f1 s3 Hw);
        [|exact Esw].
      intros a t r t'. apply sys_write_keeps_spt.
    - apply (unpinned_after_buffer_call f s2 true
               (fun a => sys_read (to_int32 (arg a 0)) (arg a 1) (arg a 2)) f1 s3 Hw);
        [|exact Esw].
      intros a t r t'. apply sys_read_keeps_spt. }
  intros a Ha. destruct (H3 a Ha) as (e & He & Hp).
  destruct (unpin_addr_Ret (esp f) s3) as (s4' & Eun' & _ & Hl).
  assert (s4' = s4) as -> by congruence.
  unfold page_is, get_spte in *. rewrite Hl. case_decide as Hpg.
  - rewrite He. by exists (unpin_entry e).
  - by exists e.
Qed.

(** ** The dispatcher on its edges *)

Lemma syscall_handler_bad_number (fuel : nat) f s :
  0 <= esp f -> esp f + 4 < 4294967296 ->
  forallb (mapped_user_byte s) (seqZ (esp f) 4) = false ->
  syscall_handler fuel f s = sys_exit (-1) s.
Proof.
  intros H0 Hw Hbad. unfold syscall_handler, get_syscall_type.
  unfold bind at 1 2. rewrite valid_uaddr_range by lia. by rewrite Hbad.
Qed.

(** X12: for a stack pointer whose four number bytes do not wrap around the
    address space: if one of the four bytes of the system call number is
    null, outside user space or on a page without SPT entry, the dispatcher
    terminates the process with status -1 straight away: the exit path
    starts from the very state the request came in with. *)
Theorem bad_stack_pointer_terminates (fuel : nat) f s :
  0 <= esp f -> esp f + 4 < 4294967296 ->
  forallb (mapped_user_byte s) (seqZ (esp f) 4) = false ->
  syscall_handler fuel f s = sys_exit (-1) s.
Proof. apply syscall_handler_bad_number. Qed.

Lemma get_syscall_arg_loop_length n ptr s a s' :
  get_syscall_arg_loop ptr n s = Ret a s' -> length a = n.
Proof.
  revert ptr s a s'. induction n as [|n IH]; intros ptr s a s'.
  - by intros [= <- <-].
  - cbn [get_syscall_arg_loop]. intros E.
    apply bind_Ret_inv in E as (p & s1 & _ & E).
    apply bind_Ret_inv in E as (v & s2 & _ & E).
    apply bind_Ret_inv in E as (rest & s3 & Er & E).
    injection E as <- <-. cbn. f_equal. by eapply IH.
Qed.

(** X13: when [get_syscall_arg] returns, it returns exactly [argc] words,
    the i-th being the word at [esp + 4 * (i + 1)] of the user stack, and it
    has changed nothing but the SPT. *)
Theorem get_syscall_arg_reads_stack_words (argc : nat) f s :
  when_returns (get_syscall_arg f argc s) (fun a s' =>
    untouched s s'
    /\ length a = argc
    /\ forall i, (i < argc)%nat -> arg a i = stack_arg s f (Z.of_nat i)).
Proof.
  destruct (get_syscall_arg_spec argc f s) as [Hb Hv].
  destruct (get_syscall_arg f argc s) as [a s'| | | |] eqn:E; try done.
  cbn [when_returns]. split_and!; [exact Hb| |by eapply Hv].
  by eapply get_syscall_arg_loop_length.
Qed.

Lemma unpin_addr_untouched addr s u s' : unpin_addr addr s = Ret u s' -> untouched s s'.
Proof.
  destruct (unpin_addr_Ret addr s) as (s1 & E & Hu & _). rewrite E.
  intros E'. assert (s' = s1) as -> by congruence. exact Hu.
Qed.

(** X14: a request whose number names no system call (not 0 to 14) makes the
    dispatcher run no handler: if it returns, the interrupt frame ([eax]
    included) is as it came and nothing but the SPT has changed. *)
Theorem unknown_request_runs_no_handler (fuel : nat) f s :
  ~ (0 <= request_type s f <= 14) ->
  when_returns (syscall_handler fuel f s) (fun f' s' => f' = f /\ untouched s s').
Proof.
  intros Hty.
  destruct (syscall_handler fuel f s) as [f' s'| | | |] eqn:E; try done.
  cbn [when_returns]. unfold syscall_handler in E.
  apply bind_Ret_inv in E as (type & s1 & Et & E).
  apply bind_Ret_inv in E as (p0 & s2 & Ep & E).
  apply bind_Ret_inv in E as (f1 & s3 & Esw & E).
  apply bind_Ret_inv in E as (u & s4 & Eun & E). injection E as <- <-.
  destruct (get_syscall_type_spec f s) as [Hb Ht]. rewrite (Ht _ _ Et) in Esw.
  pose proof (benign_Ret_untouched _ _ _ _ Hb Et) as Hu1.
  pose proof (benign_Ret_untouched _ _ _ _
                (benign_check_and_pin_addr (esp f) (esp f) s1) Ep) as Hu2.
  repeat match type of Esw with
         | context [request_type s f =? ?c] =>
             destruct (Z.eqb_spec (request_type s f) c) as [Hc|_];
             [exfalso; apply Hty; rewrite Hc; by cbv|]
         end.
  injection Esw as <- <-. split; [done|].
  eapply untouched_trans; [|by eapply unpin_addr_untouched].
  by eapply untouched_trans.
Qed.

Lemma never_returns_bind {A B} (m : M A) (k : A -> M B) s (Q : outcome B -> Prop) :
  benign s (m s) ->
  (forall a s', m s = Ret a s' -> untouched s s' -> Q (k a s')) ->
  (forall s1, Q (Exited (exit_state (-1) s1))) ->
  Q (bind m k s).
Proof.
  unfold bind. intros Hm Hk Hex. destruct (m s) as [a s'|s'| | |] eqn:E; try done.
  - by apply Hk.
  - destruct Hm as (s1 & _ & ->). apply Hex.
Qed.

Lemma on_exit_bind {A B} (m : M A) (k : A -> M B) s (P : state -> Prop) :
  on_exit (m s) P -> on_exit (bind m k s) P.
Proof. unfold bind. by destruct (m s). Qed.

Lemma get_syscall_type_passes f s :
  0 <= esp f -> esp f + 4 < 4294967296 ->
  forallb (mapped_user_byte s) (seqZ (esp f) 4) = true ->
  get_syscall_type f s = Ret (request_type s f) s.
Proof.
  intros H0 Hw Hb. unfold get_syscall_type. unfold bind at 1.
  rewrite valid_uaddr_range by lia. by rewrite Hb.
Qed.

Lemma number_page_mapped f s :
  0 <= esp f ->
  forallb (mapped_user_byte s) (seqZ (esp f) 4) = true ->
  is_Some (get_spte (esp f) s).
Proof.
  intros H0 Hb. rewrite seqZ_cons in Hb by lia. cbn [forallb] in Hb.
  apply andb_true_iff in Hb as [Hb _]. unfold mapped_user_byte in Hb.
  apply andb_true_iff in Hb as [_ Hb]. by apply bool_decide_eq_true in Hb.
Qed.

Lemma check_and_pin_addr_Some addr esp_ s e :
  get_spte addr s = Some e ->
  check_and_pin_addr addr esp_ s
  = Ret (Some e) (set_spt (<[pg_no addr := load_and_pin e]> (spt s)) s).
Proof. intros E. unfold check_and_pin_addr, bind, gets. by rewrite E. Qed.

Lemma check_and_pin_addr_None addr esp_ s :
  get_spte addr s = None ->
  check_and_pin_addr addr esp_ s
  = if is_stack_growth addr esp_ && frame_for_stack (pg_no addr)
    then Ret None (set_spt (<[pg_no addr := mk_spte FRAMED true true 0 0 0 PGSIZE]>
                              (spt s)) s)
    else sys_exit (-1) s.
Proof.
  intros E. unfold check_and_pin_addr, bind, gets, spt_stack_growth. rewrite E.
  destruct (is_stack_growth addr esp_); [|done].
  by destruct (frame_for_stack (pg_no addr)).
Qed.

(** X15: an exit request issued with a stack pointer whose argument slot
    does not wrap around the address space never returns to its caller: the
    process is terminated.  The status recorded is the word on the stack
    (taken as an [int]) exactly when the dispatcher's checks of the stack
    pass -- the four bytes of the number are non-null user addresses on
    pages of the SPT, and the page of the argument slot is in the SPT or is
    granted as stack growth (judged at the constant 4) with a frame to be
    had -- and it is -1 otherwise. *)
Theorem exit_request_terminates (fuel : nat) f s :
  request_type s f = SYS_EXIT ->
  0 <= esp f -> esp f + 8 < 4294967296 ->
  on_exit (syscall_handler fuel f s) (fun s' =>
    exit_status s'
    = if forallb (mapped_user_byte s) (seqZ (esp f) 4)
         && (bool_decide (is_Some (get_spte (esp f + 4) s))
             || is_stack_growth (esp f + 4) 4 && frame_for_stack (pg_no (esp f + 4)))
      then to_int32 (stack_arg s f 0)
      else -1).
Proof.
  intros Hty H0 Hw.
  destruct (forallb (mapped_user_byte s) (seqZ (esp f) 4)) eqn:Hb; cbn [andb].
  2:{ rewrite syscall_handler_bad_number by (done || lia).
      rewrite sys_exit_eq. cbn [on_exit]. apply exit_state_status. }
  destruct (number_page_mapped f s H0 Hb) as [e0 He0].
  unfold syscall_handler. unfold bind at 1.
  rewrite get_syscall_type_passes by (done || lia).
  unfold bind at 1. rewrite (check_and_pin_addr_Some _ _ _ _ He0), Hty.
  set (s2 := set_spt _ s).
  cbv [SYS_CREATE SYS_REMOVE SYS_OPEN SYS_CLOSE SYS_EXIT Z.eqb Pos.eqb].
  apply on_exit_bind.
  assert (Hsame : is_Some (get_spte (esp f + 4) s2)
                  <-> is_Some (get_spte (esp f + 4) s)).
  { unfold s2, get_spte. cbn [spt set_spt].
    destruct (Z.eq_dec (pg_no (esp f)) (pg_no (esp f + 4))) as [E|E].
    - rewrite E, lookup_insert_eq. unfold get_spte in He0. rewrite E in He0.
      rewrite He0. split; eauto.
    - by rewrite lookup_insert_ne. }
  assert (Hm : umem s2 = umem s) by done.
  unfold get_syscall_arg. cbn [get_syscall_arg_loop]. rewrite wrap32_small by lia.
  unfold bind at 1 2.
  destruct (get_spte (esp f + 4) s2) as [e1|] eqn:He1.
  - rewrite (check_and_pin_addr_Some _ _ _ _ He1).
    rewrite bool_decide_eq_true_2 by (apply Hsame; eauto). cbn [orb].
    unfold bind, load32, gets, ret. rewrite sys_exit_eq. cbn [on_exit].
    rewrite exit_state_status. cbn [arg nth]. done.
  - rewrite (check_and_pin_addr_None _ _ _ He1).
    rewrite bool_decide_eq_false_2.
    2:{ intros Hs. apply Hsame in Hs. by destruct Hs. }
    cbn [orb].
    destruct (is_stack_growth (esp f + 4) 4 && frame_for_stack (pg_no (esp f + 4))).
    + unfold bind, load32, gets, ret. rewrite sys_exit_eq. cbn [on_exit].
      rewrite exit_state_status. cbn [arg nth]. done.
    + rewrite sys_exit_eq. cbn [on_exit]. apply exit_state_status.
Qed.

(** ** Memory mappings *)

Ltac div_lia := unfold page_count, pg_no, PGSIZE in *;
                Z.to_euclidean_division_equations; lia.

(** X16: for an open descriptor, [mmap] answers -1 and changes nothing when
    the address is null or outside user space, when it is not page-aligned,
    or when the file is empty. *)
Theorem sys_mmap_rejects_bad_request (fdn addr : Z) s d :
  get_fdstruct_in (file_descriptors s) fdn = Some d ->
  is_valid_user_addr addr = false
  \/ wrap32 addr mod PGSIZE <> 0
  \/ to_int32 (file_length (file_pointer d) (world s)) = 0 ->
  sys_mmap fdn addr s = Ret (-1) s.
Proof.
  intros Hd H. unfold sys_mmap, bind, get_fdstruct, gets. rewrite Hd.
  destruct H as [-> | [H | ->]]; [done| |].
  - destruct (Z.eqb_spec (wrap32 addr mod PGSIZE) 0) as [|_]; [done|].
    by destruct (is_valid_user_addr addr).
  - rewrite Z.eqb_refl. by rewrite !orb_true_r.
Qed.

Lemma sys_mmap_loop_maps n file ofs addr rb s :
  0 <= rb -> (Z.to_nat rb <= n)%nat ->
  0 <= addr < 4294967296 -> (0 < rb -> addr + rb <= 4294967296) ->
  (forall i, 0 <= i -> i * PGSIZE < rb -> spt s !! (pg_no addr + i) = None) ->
  exists s',
    sys_mmap_loop n file ofs addr rb s = Ret true s'
    /\ s' = set_mmap_list (mmap_list s') (set_spt (spt s') s)
    /\ mmap_list s'
       = mmap_list s
         ++ mapping_pages (Z.to_nat (page_count rb)) (mapid s) (pg_no addr) file
    /\ (forall i, 0 <= i -> i * PGSIZE < rb ->
          spt s' !! (pg_no addr + i)
          = Some (mk_spte FILE_MAPPED true false file (ofs + i * PGSIZE)
                    (Z.min PGSIZE (rb - i * PGSIZE))
                    (PGSIZE - Z.min PGSIZE (rb - i * PGSIZE))))
    /\ (forall p, (forall i, 0 <= i -> i * PGSIZE < rb -> p <> pg_no addr + i) ->
          spt s' !! p = spt s !! p).
Proof.
  revert ofs addr rb s. induction n as [|n IH]; intros ofs addr rb s Hrb Hn Ha Hw Hfree.
  - assert (rb = 0) as -> by lia. exists s. cbn.
    split_and!; [done|by destruct s|by rewrite app_nil_r| |done].
    intros i Hi Hlt. unfold PGSIZE in Hlt. lia.
  - cbn [sys_mmap_loop]. destruct (Z.ltb_spec 0 rb) as [Hpos|Hz].
    2:{ assert (rb = 0) as -> by lia. exists s. cbn.
        split_and!; [done|by destruct s|by rewrite app_nil_r| |done].
        intros i Hi Hlt. unfold PGSIZE in Hlt. lia. }
    set (prb := if rb <? PGSIZE then rb else PGSIZE).
    assert (Hprb : prb = Z.min PGSIZE rb)
      by (unfold prb; destruct (Z.ltb_spec rb PGSIZE); lia).
    unfold bind at 1. unfold spt_link_mmap at 1.
    pose proof (Hfree 0 ltac:(lia) ltac:(unfold PGSIZE; lia)) as Hf0.
    rewrite Z.add_0_r in Hf0. rewrite Hf0. cbn [negb].
    set (s1 := set_mmap_list _ _).
    destruct (Z.le_gt_cases rb PGSIZE) as [Hsmall|Hbig].
    + (* the last page *)
      assert (Hrest : rb - prb = 0) by lia. rewrite Hrest.
      destruct (IH (ofs + prb) (wrap32 (addr + PGSIZE)) 0 s1
                  ltac:(lia) ltac:(lia) (wrap32_range _) ltac:(lia))
        as (s' & E & Hs' & Hl & _ & Hout).
      { intros i Hi Hlt. unfold PGSIZE in Hlt. lia. }
      exists s'. split; [exact E|]. split_and!.
      * rewrite Hs'. by destruct s.
      * rewrite Hl. subst s1. cbn. rewrite app_nil_r.
        replace (Z.to_nat (page_count rb)) with 1%nat by div_lia. done.
      * intros i Hi Hlt. assert (i = 0) as -> by (unfold PGSIZE in *; lia).
        rewrite Hout by (intros j Hj Hjl; unfold PGSIZE in Hjl; lia).
        subst s1. cbn. rewrite Z.add_0_r, lookup_insert_eq.
        do 2 f_equal; unfold PGSIZE in *; lia.
      * intros p Hp. rewrite Hout by (intros j Hj Hjl; unfold PGSIZE in Hjl; lia).
        subst s1. cbn. rewrite lookup_insert_ne; [done|].
        intros Heq. apply (Hp 0); [lia|unfold PGSIZE; lia|lia].
    + (* a full page, more to come *)
      assert (Hfull : prb = PGSIZE) by lia. rewrite Hfull.
      specialize (Hw Hpos).
      rewrite (wrap32_small (addr + PGSIZE)) by (unfold PGSIZE in *; lia).
      assert (Hpg : pg_no (addr + PGSIZE) = pg_no addr + 1) by div_lia.
      destruct (IH (ofs + PGSIZE) (addr + PGSIZE) (rb - PGSIZE) s1) as
        (s' & E & Hs' & Hl & Hin & Hout).
      { lia. } { unfold PGSIZE in *. lia. } { unfold PGSIZE in *. lia. }
      { intros _. lia. }
      { intros i Hi Hlt. subst s1. cbn. rewrite Hpg.
        rewrite lookup_insert_ne by lia.
        replace (pg_no addr + 1 + i) with (pg_no addr + (i + 1)) by lia.
        apply Hfree; [lia|]. unfold PGSIZE in *. lia. }
      exists s'. split; [exact E|]. split_and!.
      * rewrite Hs'. by destruct s.
      * rewrite Hl. subst s1. cbn. rewrite <- app_assoc. f_equal.
        replace (Z.to_nat (page_count rb))
          with (S (Z.to_nat (page_count (rb - PGSIZE)))) by div_lia.
        cbn. by rewrite Hpg.
      * intros i Hi Hlt. destruct (Z.eq_dec i 0) as [->|Hi0].
        -- rewrite Hout.
           ++ subst s1. cbn. rewrite Z.add_0_r, lookup_insert_eq.
              do 2 f_equal; unfold PGSIZE in *; lia.
           ++ intros j Hj Hjl. rewrite Hpg. lia.
        -- replace (pg_no addr + i) with (pg_no (addr + PGSIZE) + (i - 1))
             by (rewrite Hpg; lia).
           rewrite Hin by (unfold PGSIZE in *; lia).
           do 2 f_equal; unfold PGSIZE in *; lia.
      * intros p Hp. rewrite Hout.
        -- subst s1. cbn. rewrite lookup_insert_ne; [done|].
           intros Heq. apply (Hp 0); [lia|unfold PGSIZE; lia|lia].
        -- intros j Hj Hjl. rewrite Hpg.
           replace (pg_no addr + 1 + j) with (pg_no addr + (j + 1)) by lia.
           apply Hp; [lia|]. unfold PGSIZE in *. lia.
Qed.

Lemma is_valid_user_addr_below a : is_valid_user_addr a = true -> a < PHYS_BASE.
Proof.
  unfold is_valid_user_addr, is_user_vaddr. intros H.
  apply andb_prop in H as [_ H]. by apply Z.ltb_lt.
Qed.

Lemma sys_mmap_unfold fdn addr s d file w s' :
  get_fdstruct_in (file_descriptors s) fdn = Some d ->
  0 <= addr < 4294967296 -> is_valid_user_addr addr = true -> addr mod PGSIZE = 0 ->
  0 < file_length (file_pointer d) (world s) < 2147483648 ->
  file_reopen (file_pointer d) (world s) = (file, w) ->
  sys_mmap_loop (Z.to_nat (file_length (file_pointer d) (world s))) file 0 addr
    (file_length (file_pointer d) (world s)) (set_world w s) = Ret true s' ->
  sys_mmap fdn addr s = Ret (mapid s') (set_mapid (to_int32 (mapid s' + 1)) s').
Proof.
  intros Hd Ha Hv Hal Hlen Er E.
  unfold sys_mmap, bind, get_fdstruct, gets, call_world, modify, ret.
  rewrite Hd, Hv.
  rewrite (to_int32_small (file_length _ _)) by lia.
  rewrite (wrap32_small addr), Hal by lia.
  rewrite (wrap32_small (file_length _ _)) by lia.
  destruct (Z.eqb_spec (file_length (file_pointer d) (world s)) 0) as [|_]; [lia|].
  cbn [negb orb]. rewrite Z.eqb_refl. cbn [negb orb].
  by rewrite Er, E.
Qed.

Lemma sys_mmap_Ret fdn addr s d :
  get_fdstruct_in (file_descriptors s) fdn = Some d ->
  0 <= addr -> is_valid_user_addr addr = true -> addr mod PGSIZE = 0 ->
  0 < file_length (file_pointer d) (world s) < 2147483648 ->
  addr + file_length (file_pointer d) (world s) <= 4294967296 ->
  (forall i, 0 <= i -> i * PGSIZE < file_length (file_pointer d) (world s) ->
     spt s !! (pg_no addr + i) = None) ->
  exists s',
    sys_mmap fdn addr s = Ret (mapid s) s'
    /\ mapid s' = to_int32 (mapid s + 1)
    /\ file_descriptors s' = file_descriptors s
    /\ world s' = (file_reopen (file_pointer d) (world s)).2
    /\ mmap_list s'
       = mmap_list s
         ++ mapping_pages
              (Z.to_nat (page_count (file_length (file_pointer d) (world s))))
              (mapid s) (pg_no addr) (file_reopen (file_pointer d) (world s)).1
    /\ (forall i, 0 <= i -> i * PGSIZE < file_length (file_pointer d) (world s) ->
          spt s' !! (pg_no addr + i)
          = Some (mapped_entry (file_reopen (file_pointer d) (world s)).1
                    (file_length (file_pointer d) (world s)) i))
    /\ (forall p,
          (forall i, 0 <= i -> i * PGSIZE < file_length (file_pointer d) (world s) ->
             p <> pg_no addr + i) ->
          spt s' !! p = spt s !! p).
Proof.
  intros Hd H0 Hv Hal Hlen Hw Hfree.
  pose proof (is_valid_user_addr_below _ Hv) as Hlt. unfold PHYS_BASE in Hlt.
  destruct (file_reopen (file_pointer d) (world s)) as [file w] eqn:Er.
  destruct (sys_mmap_loop_maps (Z.to_nat (file_length (file_pointer d) (world s)))
              file 0 addr (file_length (file_pointer d) (world s)) (set_world w s))
    as (s' & E & Hs' & Hl & Hin & Hout); [lia|lia|lia|lia|exact Hfree|].
  assert (Hid : mapid s' = mapid s) by (by rewrite Hs').
  exists (set_mapid (to_int32 (mapid s + 1)) s').
  split.
  - rewrite <- Hid. apply (sys_mmap_unfold fdn addr s d file w s'); try done. lia.
  - cbn [mapid file_descriptors world mmap_list spt set_mapid fst snd].
    split; [reflexivity|]. split; [by rewrite Hs'|]. split; [by rewrite Hs'|].
    split; [exact Hl|]. split; [|exact Hout].
    intros i Hi Hil. rewrite (Hin i Hi Hil). unfold mapped_entry. by rewrite Z.add_0_l.
Qed.

(** X17: [mmap] of an open file of [len] bytes (0 < len < 2^31) at a
    page-aligned user address [addr] with [addr + len <= 2^32], where every
    page the file needs is free, returns the current mapid and advances the
    counter.  It has reopened the file and made one
    FILE_MAPPED, writable, unpinned SPT entry per page: page [i] reads
    [min (PGSIZE, len - i * PGSIZE)] bytes at file offset [i * PGSIZE] and
    zeroes the rest of the page.  All of them are registered under the
    returned mapid; no other page of the SPT and no descriptor has changed. *)
Theorem sys_mmap_maps_whole_file (fdn addr : Z) s d :
  get_fdstruct_in (file_descriptors s) fdn = Some d ->
  0 <= addr -> is_valid_user_addr addr = true -> addr mod PGSIZE = 0 ->
  0 < file_length (file_pointer d) (world s) < 2147483648 ->
  addr + file_length (file_pointer d) (world s) <= 4294967296 ->
  (forall i, 0 <= i -> i * PGSIZE < file_length (file_pointer d) (world s) ->
     spt s !! (pg_no addr + i) = None) ->
  exists s',
    sys_mmap fdn addr s = Ret (mapid s) s'
    /\ mapid s' = to_int32 (mapid s + 1)
    /\ file_descriptors s' = file_descriptors s
    /\ world s' = (file_reopen (file_pointer d) (world s)).2
    /\ mmap_list s'
       = mmap_list s
         ++ mapping_pages
              (Z.to_nat (page_count (file_length (file_pointer d) (world s))))
              (mapid s) (pg_no addr) (file_reopen (file_pointer d) (world s)).1
    /\ (forall i, 0 <= i -> i * PGSIZE < file_length (file_pointer d) (world s) ->
          spt s' !! (pg_no addr + i)
          = Some (mapped_entry (file_reopen (file_pointer d) (world s)).1
                    (file_length (file_pointer d) (world s)) i))
    /\ (forall p,
          (forall i, 0 <= i -> i * PGSIZE < file_length (file_pointer d) (world s) ->
             p <> pg_no addr + i) ->
          spt s' !! p = spt s !! p).
Proof. apply sys_mmap_Ret. Qed.

Lemma mapping_pages_elem n id upage file m :
  m ∈ mapping_pages n id upage file <->
  mm_mapid m = id /\ mm_file m = file /\ upage <= mm_upage m < upage + Z.of_nat n.
Proof.
  revert upage. induction n as [|n IH]; intros upage; cbn [mapping_pages].
  - split; [intros H; by apply not_elem_of_nil in H|lia].
  - rewrite elem_of_cons, IH. split.
    + intros [->|(? & ? & ?)]; cbn; split_and!; try done; lia.
    + intros (Hi & Hf & Hr). destruct (Z.eq_dec (mm_upage m) upage) as [Hu|Hu].
      * left. destruct m. cbn in *. by subst.
      * right. split_and!; try done; lia.
Qed.

Lemma unmap_pages_lookup l (t : gmap Z spt_entry) p :
  unmap_pages l t !! p
  = if bool_decide (p ∈ mm_upage <$> l) then None else t !! p.
Proof.
  induction l as [|m l IH].
  - done.
  - change (unmap_pages (m :: l) t) with (delete (mm_upage m) (unmap_pages l t)).
    rewrite fmap_cons. destruct (Z.eq_dec (mm_upage m) p) as [Hp|Hp].
    + rewrite Hp, lookup_delete_eq. rewrite bool_decide_eq_true_2; [done|].
      apply list_elem_of_here.
    + rewrite lookup_delete_ne, IH by done.
      apply (f_equal (fun b : bool => if b then None else t !! p)).
      apply bool_decide_ext. rewrite elem_of_cons. split; [by right|].
      intros [E|H]; [by symmetry in E|done].
Qed.

Lemma filter_none {A} (P : A -> Prop) `{!forall x, Decision (P x)} (l : list A) :
  (forall x, x ∈ l -> ~ P x) -> filter P l = [].
Proof.
  induction l as [|x l IH]; [done|]. intros Hall.
  rewrite filter_cons_False by (apply Hall, list_elem_of_here).
  apply IH. intros y Hy. apply Hall. by apply list_elem_of_further.
Qed.

Lemma filter_all {A} (P : A -> Prop) `{!forall x, Decision (P x)} (l : list A) :
  (forall x, x ∈ l -> P x) -> filter P l = l.
Proof.
  induction l as [|x l IH]; [done|]. intros Hall.
  rewrite filter_cons_True by (apply Hall, list_elem_of_here).
  f_equal. apply IH. intros y Hy. apply Hall. by apply list_elem_of_further.
Qed.

(** X18: mapping a file and unmapping the mapid that [mmap] returned brings
    the SPT and the list of mappings back to what they were (in a process
    that has no mapping registered under the current mapid). *)
Theorem mmap_then_munmap_restores (fdn addr : Z) s d :
  get_fdstruct_in (file_descriptors s) fdn = Some d ->
  0 <= addr -> is_valid_user_addr addr = true -> addr mod PGSIZE = 0 ->
  0 < file_length (file_pointer d) (world s) < 2147483648 ->
  addr + file_length (file_pointer d) (world s) <= 4294967296 ->
  (forall i, 0 <= i -> i * PGSIZE < file_length (file_pointer d) (world s) ->
     spt s !! (pg_no addr + i) = None) ->
  (forall m, m ∈ mmap_list s -> mm_mapid m <> mapid s) ->
  exists s1 s2,
    sys_mmap fdn addr s = Ret (mapid s) s1
    /\ sys_munmap (mapid s) s1 = Ret tt s2
    /\ spt s2 = spt s
    /\ mmap_list s2 = mmap_list s.
Proof.
  intros Hd H0 Hv Hal Hlen Hw Hfree Hids.
  destruct (sys_mmap_Ret fdn addr s d Hd H0 Hv Hal Hlen Hw Hfree)
    as (s1 & E & _ & _ & _ & Hl & Hin & Hout).
  set (len := file_length (file_pointer d) (world s)) in *.
  set (file := (file_reopen (file_pointer d) (world s)).1) in *.
  set (new := mapping_pages (Z.to_nat (page_count len)) (mapid s) (pg_no addr) file) in *.
  assert (Hnew : forall m, m ∈ new -> mm_mapid m = mapid s)
    by (intros m Hm; by apply mapping_pages_elem in Hm as (? & _)).
  exists s1. eexists. split; [exact E|]. split; [reflexivity|].
  unfold unmap. cbn [spt mmap_list set_spt set_mmap_list]. rewrite Hl, !filter_app.
  rewrite (filter_none (fun m => mapped_under (mapid s) m = true) (mmap_list s)).
  2:{ intros m Hm. unfold mapped_under. rewrite not_true_iff_false.
      apply Z.eqb_neq. by apply Hids. }
  rewrite (filter_all (fun m => mapped_under (mapid s) m = true) new).
  2:{ intros m Hm. unfold mapped_under. apply Z.eqb_eq. by apply Hnew. }
  rewrite (filter_all (fun m => mapped_under (mapid s) m = false) (mmap_list s)).
  2:{ intros m Hm. unfold mapped_under. apply Z.eqb_neq. by apply Hids. }
  rewrite (filter_none (fun m => mapped_under (mapid s) m = false) new).
  2:{ intros m Hm. unfold mapped_under. rewrite not_false_iff_true.
      apply Z.eqb_eq. by apply Hnew. }
  split; [|by rewrite app_nil_r]. cbn [app]. apply map_eq. intros p.
  rewrite unmap_pages_lookup. case_bool_decide as Hp.
  - apply list_elem_of_fmap in Hp as (m & -> & Hm).
    apply mapping_pages_elem in Hm as (_ & _ & Hr).
    replace (mm_upage m) with (pg_no addr + (mm_upage m - pg_no addr)) by lia.
    symmetry. apply Hfree; [lia|]. div_lia.
  - apply Hout. intros i Hi Hil Hpi. apply Hp.
    apply list_elem_of_fmap. exists (mk_mm (mapid s) p file). split; [done|].
    apply mapping_pages_elem. cbn. split_and!; try done; div_lia.
Qed.

(** ** The file-system lock *)

(** X19: started with the file-system lock free, every handler that takes
    the lock and returns leaves it free again -- create, remove, open,
    close, write, seek, tell, filesize, and read on any descriptor other
    than 0. *)
Theorem handlers_leave_lock_free (fuel : nat) (a b c : Z) s :
  filesystem_lock s = false ->
  when_returns (sys_create fuel a b s) (fun _ s' => filesystem_lock s' = false)
  /\ when_returns (sys_remove fuel a s) (fun _ s' => filesystem_lock s' = false)
  /\ when_returns (sys_open fuel a s) (fun _ s' => filesystem_lock s' = false)
  /\ when_returns (sys_close a s) (fun _ s' => filesystem_lock s' = false)
  /\ when_returns (sys_write a b c s) (fun _ s' => filesystem_lock s' = false)
  /\ (a <> 0 ->
      when_returns (sys_read a b c s) (fun _ s' => filesystem_lock s' = false))
  /\ when_returns (sys_seek a b s) (fun _ s' => filesystem_lock s' = false)
  /\ when_returns (sys_tell a s) (fun _ s' => filesystem_lock s' = false)
  /\ when_returns (sys_filesize a s) (fun _ s' => filesystem_lock s' = false).
Proof.
  intros Hfree. split_and!.
  - destruct (sys_create fuel a b s) eqn:E; try done. by eapply sys_create_releases.
  - destruct (sys_remove fuel a s) eqn:E; try done. by eapply sys_remove_releases.
  - destruct (sys_open fuel a s) eqn:E; try done. by eapply sys_open_releases.
  - destruct (sys_close a s) eqn:E; try done. by eapply sys_close_releases.
  - destruct (sys_write a b c s) eqn:E; try done. by eapply sys_write_releases.
  - intros Ha. destruct (sys_read a b c s) eqn:E; try done.
    by eapply sys_read_releases.
  - unfold sys_seek, bind, get_fdstruct, gets. by destruct (get_fdstruct_in _ _).
  - unfold sys_tell, bind, get_fdstruct, gets. by destruct (get_fdstruct_in _ _).
  - unfold sys_filesize, bind, get_fdstruct, gets. by destruct (get_fdstruct_in _ _).
Qed.

(** ** Requests that do not come back *)

(** X20: a halt request issued with a stack pointer whose four number bytes
    do not wrap around the address space never returns to its caller.  When
    those four bytes are non-null user addresses on pages of the SPT, the
    machine is powered off with nothing but the SPT changed; otherwise the
    process is terminated by the exit path with status -1, started from the
    very state the request came in with. *)
Theorem halt_request_powers_off (fuel : nat) f s :
  request_type s f = SYS_HALT ->
  0 <= esp f -> esp f + 4 < 4294967296 ->
  if forallb (mapped_user_byte s) (seqZ (esp f) 4)
  then exists s', syscall_handler fuel f s = PoweredOff s' /\ untouched s s'
  else syscall_handler fuel f s = sys_exit (-1) s.
Proof.
  intros Hty H0 Hw.
  destruct (forallb (mapped_user_byte s) (seqZ (esp f) 4)) eqn:Hb;
    [|by apply syscall_handler_bad_number].
  destruct (number_page_mapped f s H0 Hb) as [e0 He0].
  eexists. unfold syscall_handler. unfold bind at 1.
  rewrite get_syscall_type_passes by (done || lia).
  unfold bind at 1. rewrite (check_and_pin_addr_Some _ _ _ _ He0), Hty.
  split; [reflexivity|apply untouched_set_spt].
Qed.

(** ** A path or command line, from pinning to unpinning *)

Lemma unpin_idem (o : option spt_entry) :
  unpin_entry <$> (unpin_entry <$> o) = unpin_entry <$> o.
Proof. by destruct o. Qed.

Lemma unpin_string_loop_Ret fuel str s l :
  0 <= str -> str + Z.of_nat (length l) < 4294967295 ->
  mem_cstring fuel (umem s) str = Some l ->
  exists s',
    unpin_string_loop fuel str s = Ret tt s'
    /\ untouched s s'
    /\ (forall p, spt s' !! p = spt s !! p \/ spt s' !! p = unpin_entry <$> spt s !! p)
    /\ (forall i, 1 <= i <= Z.of_nat (length l) ->
          get_spte (str + i) s' = unpin_entry <$> get_spte (str + i) s).
Proof.
  revert str s l. induction fuel as [|k IH]; intros str s l H0 Hw; [done|].
  cbn [mem_cstring unpin_string_loop]. unfold bind at 1. unfold load8, gets.
  rewrite (wrap32_small str) by lia.
  destruct (umem s str =? 0).
  - intros [= <-]. exists s. split; [done|]. split; [apply untouched_refl|].
    split; [by left|]. cbn. intros i Hi. lia.
  - destruct (mem_cstring k (umem s) (wrap32 (str + 1))) as [l'|] eqn:El; [|done].
    intros [= <-]. cbn [length] in Hw.
    rewrite (wrap32_small (str + 1)) in El |- * by lia.
    destruct (unpin_addr_Ret (str + 1) s) as (s1 & E1 & Hu1 & H1).
    rewrite <- (untouched_umem _ _ Hu1) in El.
    destruct (IH (str + 1) s1 l' ltac:(lia) ltac:(lia) El) as (s' & E & Hu & Hany & Hin).
    exists s'. unfold bind. rewrite E1. split; [exact E|].
    split; [by eapply untouched_trans|]. split.
    + intros p. destruct (Hany p) as [-> | ->]; rewrite H1; case_decide;
        rewrite ?unpin_idem; auto.
    + intros i Hi. unfold get_spte in *. cbn [length] in Hi.
      destruct (Z.eq_dec i 1) as [->|Hi1].
      * destruct (Hany (pg_no (str + 1))) as [-> | ->]; rewrite H1;
          (case_decide; [|done]); by rewrite ?unpin_idem.
      * replace (str + i) with (str + 1 + (i - 1)) by lia.
        rewrite Hin by lia. rewrite H1. case_decide as Hp; [|done].
        by rewrite Hp, unpin_idem.
Qed.

Lemma unpin_string_Ret fuel str s l :
  0 <= str -> str + Z.of_nat (length l) < 4294967295 ->
  mem_cstring fuel (umem s) str = Some l ->
  exists s',
    unpin_string fuel str s = Ret tt s'
    /\ untouched s s'
    /\ (forall i, 0 <= i <= Z.of_nat (length l) ->
          get_spte (str + i) s' = unpin_entry <$> get_spte (str + i) s).
Proof.
  intros H0 Hw Hl. unfold unpin_string.
  destruct (unpin_addr_Ret str s) as (s1 & E1 & Hu1 & H1).
  rewrite <- (untouched_umem _ _ Hu1) in Hl.
  destruct (unpin_string_loop_Ret fuel str s1 l H0 Hw Hl) as (s' & E & Hu & Hany & Hin).
  exists s'. unfold bind. rewrite E1. split; [exact E|].
  split; [by eapply untouched_trans|].
  intros i Hi. unfold get_spte in *. destruct (Z.eq_dec i 0) as [->|Hi0].
  - rewrite Z.add_0_r.
    destruct (Hany (pg_no str)) as [-> | ->]; rewrite H1;
      (case_decide; [|done]); by rewrite ?unpin_idem.
  - rewrite Hin by lia. rewrite H1. case_decide as Hp; [|done].
    by rewrite Hp, unpin_idem.
Qed.

Lemma check_and_pin_string_loop_untouched fuel str esp_ s u s' :
  check_and_pin_string_loop fuel str esp_ s = Ret u s' -> untouched s s'.
Proof.
  revert str s. induction fuel as [|k IH]; intros str s; [done|].
  cbn [check_and_pin_string_loop]. intros E.
  apply bind_Ret_inv in E as (c & s0 & Ec & E). injection Ec as <- <-.
  destruct (_ =? 0).
  - assert (s' = s) as -> by (unfold ret in E; congruence). apply untouched_refl.
  - apply bind_Ret_inv in E as (p & s1 & Ep & E).
    eapply untouched_trans; [|by eapply IH].
    by eapply benign_Ret_untouched; [apply benign_check_and_pin_addr|].
Qed.

Lemma check_and_pin_string_untouched fuel str esp_ s u s' :
  check_and_pin_string fuel str esp_ s = Ret u s' -> untouched s s'.
Proof.
  unfold check_and_pin_string. intros E.
  apply bind_Ret_inv in E as (p & s1 & Ep & E).
  eapply untouched_trans; [|by eapply check_and_pin_string_loop_untouched].
  by eapply benign_Ret_untouched; [apply benign_check_and_pin_addr|].
Qed.

Lemma sys_create_passes_string fuel file size s r s' :
  sys_create fuel file size s = Ret r s' ->
  (exists u, valid_string fuel file s = Ret u s)
  /\ spt s' = spt s /\ umem s' = umem s.
Proof.
  unfold sys_create. intros E.
  apply bind_Ret_inv in E as (u & t & Ev & E).
  pose proof (valid_string_loop_same _ _ _ _ _ Ev) as ->.
  split; [by exists u|].
  split_bind E. injection E0 as <- <-.
  split_bind E. unfold load_cstring in E0. cbn in E0.
  destruct (mem_cstring _ _ _); [|done]. injection E0 as <- <-.
  split_bind E. unfold call_world in E0. cbn in E0.
  destruct (filesys_create _ _ _). injection E0 as <- <-.
  by injection E as <- <-.
Qed.

Lemma sys_open_passes_string fuel file s r s' :
  sys_open fuel file s = Ret r s' ->
  (exists u, valid_string fuel file s = Ret u s)
  /\ spt s' = spt s /\ umem s' = umem s.
Proof.
  intros E. split.
  - unfold sys_open in E. apply bind_Ret_inv in E as (u & t & Ev & E).
    pose proof (valid_string_loop_same _ _ _ _ _ Ev) as ->. by exists u.
  - by apply sys_open_Ret in E as (? & ? & ? & _ & _ & [(_ & _ & ->)|(_ & _ & ->)]).
Qed.

Lemma sys_exec_passes_string fuel cmd_line s r s' :
  sys_exec fuel cmd_line s = Ret r s' ->
  (exists u, valid_string fuel cmd_line s = Ret u s)
  /\ spt s' = spt s /\ umem s' = umem s.
Proof.
  unfold sys_exec. intros E.
  apply bind_Ret_inv in E as (u & t & Ev & E).
  pose proof (valid_string_loop_same _ _ _ _ _ Ev) as ->.
  split; [by exists u|].
  split_bind E. unfold load_cstring in E0. cbn in E0.
  destruct (mem_cstring _ _ _); [|done]. injection E0 as <- <-.
  unfold call_world in E. destruct (process_execute _ _).
  by injection E as <- <-.
Qed.

Lemma unpinned_after_string_call {R} (fuel n : nat) f s2
    (call : list Z -> M R) (fin : R -> intr_frame) f1 s3 :
  (0 < n)%nat ->
  stack_arg s2 f 0 < 4294967295 ->
  (forall a t r t', call a t = Ret r t' ->
     (exists u, valid_string fuel (arg a 0) t = Ret u t)
     /\ spt t' = spt t /\ umem t' = umem t) ->
  bind (get_syscall_arg f n) (fun a =>
    bind (check_and_pin_string fuel (arg a 0) (esp f)) (fun _ =>
    bind (call a) (fun r =>
    bind (ASSERT (is_valid_user_addr (arg a 0))) (fun _ =>
    bind (unpin_string fuel (arg a 0)) (fun _ =>
    ret (fin r)))))) s2 = Ret f1 s3 ->
  exists l,
    mem_cstring fuel (umem s2) (stack_arg s2 f 0) = Some l
    /\ forall i, 0 <= i <= Z.of_nat (length l) ->
         page_is s3 (stack_arg s2 f 0 + i) (fun e => pinned e = false).
Proof.
  intros Hn Hlast Hcall E.
  apply bind_Ret_inv in E as (a & s5 & Ea & E).
  apply bind_Ret_inv in E as (u & s6 & Epin & E).
  apply bind_Ret_inv in E as (r & s7 & Ecall & E).
  apply bind_Ret_inv in E as (u1 & s8 & Eassert & E).
  apply bind_Ret_inv in E as (u2 & s9 & Eun & E).
  assert (s3 = s9) as -> by (unfold ret in E; congruence).
  assert (s8 = s7) as ->.
  { unfold ASSERT in Eassert. destruct (is_valid_user_addr _); [|done].
    unfold ret in Eassert. congruence. }
  destruct (get_syscall_arg_spec n f s2) as [Hb Hv].
  pose proof (Hcall _ _ _ _ Ecall) as ([u3 Evalid] & Hspt & Hmem).
  rewrite (Hv _ _ Ea 0%nat) in Epin, Eun, Evalid by lia.
  change (Z.of_nat 0) with 0 in Epin, Eun, Evalid.
  pose proof (mem32_range (umem s2) (esp f + 4 * (0 + 1))) as Hstr.
  fold (stack_arg s2 f 0) in Hstr.
  pose proof (untouched_umem _ _ (benign_Ret_untouched _ _ _ _ Hb Ea)) as Hm5.
  pose proof (untouched_umem _ _
                (check_and_pin_string_untouched _ _ _ _ _ _ Epin)) as Hm6.
  assert (Hrange : 0 <= stack_arg s2 f 0 < 4294967295) by lia.
  destruct (valid_string_loop_bytes fuel (stack_arg s2 f 0) s6 u3 s6 Hrange Evalid)
    as (l & Hl & Hbytes).
  exists l. split; [by rewrite <- Hm5, <- Hm6|].
  assert (Hend : stack_arg s2 f 0 + Z.of_nat (length l) < 4294967295).
  { pose proof (mapped_user_byte_below _ _ (Hbytes (Z.of_nat (length l)) ltac:(lia))) as Hlt.
    unfold PHYS_BASE in Hlt. lia. }
  rewrite <- Hmem in Hl.
  destruct (unpin_string_Ret fuel (stack_arg s2 f 0) s7 l ltac:(lia) Hend Hl)
    as (s9' & Eun' & _ & Hin).
  assert (s9' = s9) as -> by congruence.
  intros i Hi. specialize (Hbytes i Hi).
  unfold mapped_user_byte in Hbytes. apply andb_prop in Hbytes as [_ Hsome].
  apply bool_decide_eq_true in Hsome as [e He].
  exists (unpin_entry e). split; [|done].
  rewrite (Hin i Hi). unfold get_spte in *. by rewrite Hspt, He.
Qed.

(** X21: when a create, open or exec request returns to the caller, the
    page of every byte of its path or command line, terminator included, has
    an SPT entry and that entry is not pinned. *)
Theorem string_unpinned_after_dispatch (fuel : nat) f s :
  request_type s f = SYS_CREATE \/ request_type s f = SYS_OPEN
  \/ request_type s f = SYS_EXEC ->
  stack_arg s f 0 < 4294967295 ->
  when_returns (syscall_handler fuel f s) (fun _ s' =>
    exists l,
      mem_cstring fuel (umem s) (stack_arg s f 0) = Some l
      /\ forall i, 0 <= i <= Z.of_nat (length l) ->
           page_is s' (stack_arg s f 0 + i) (fun e => pinned e = false)).
Proof.
  intros Hty Hlast.
  destruct (syscall_handler fuel f s) as [f' s'| | | |] eqn:E; try done.
  cbn [when_returns]. unfold syscall_handler in E.
  apply bind_Ret_inv in E as (type & s1 & Et & E).
  apply bind_Ret_inv in E as (p0 & s2 & Ep & E).
  apply bind_Ret_inv in E as (f1 & s3 & Esw & E).
  apply bind_Ret_inv in E as (u & s4 & Eun & E).
  assert (s' = s4) as -> by (unfold ret in E; congruence).
  destruct (get_syscall_type_spec f s) as [Hb Ht]. rewrite (Ht _ _ Et) in Esw.
  pose proof (benign_Ret_untouched _ _ _ _ Hb Et) as Hu1.
  pose proof (benign_Ret_untouched _ _ _ _
                (benign_check_and_pin_addr (esp f) (esp f) s1) Ep) as Hu2.
  pose proof (untouched_umem _ _ (untouched_trans _ _ _ Hu1 Hu2)) as Hm.
  assert (Ha0 : stack_arg s2 f 0 = stack_arg s f 0) by (unfold stack_arg; by rewrite Hm).
  rewrite <- Ha0 in Hlast |- *. rewrite <- Hm.
  assert (H3 : exists l,
             mem_cstring fuel (umem s2) (stack_arg s2 f 0) = Some l
             /\ forall i, 0 <= i <= Z.of_nat (length l) ->
                  page_is s3 (stack_arg s2 f 0 + i) (fun e => pinned e = false)).
  { destruct Hty as [Hty|[Hty|Hty]]; rewrite Hty in Esw;
      cbv [SYS_CREATE SYS_REMOVE SYS_OPEN SYS_CLOSE SYS_EXIT SYS_WRITE SYS_READ
           SYS_FILESIZE SYS_EXEC Z.eqb Pos.eqb] in Esw.
    - apply (unpinned_after_string_call fuel 2 f s2
               (fun a => sys_create fuel (arg a 0) (arg a 1))
               (fun r => set_eax (bool_to_Z r) f) f1 s3); [lia|done| |exact Esw].
      intros a t r t'. apply sys_create_passes_string.
    - apply (unpinned_after_string_call fuel 1 f s2
               (fun a => sys_open fuel (arg a 0))
               (fun r => set_eax (wrap32 r) f) f1 s3); [lia|done| |exact Esw].
      intros a t r t'. apply sys_open_passes_string.
    - apply (unpinned_after_string_call fuel 1 f s2
               (fun a => sys_exec fuel (arg a 0))
               (fun r => set_eax (wrap32 r) f) f1 s3); [lia|done| |exact Esw].
      intros a t r t'. apply sys_exec_passes_string. }
  destruct H3 as (l & Hl & Hpages). exists l. split; [exact Hl|].
  intros i Hi. destruct (Hpages i Hi) as (e & He & Hp).
  destruct (unpin_addr_Ret (esp f) s3) as (s4' & Eun' & _ & Hlk).
  assert (s4' = s4) as -> by congruence.
  unfold page_is, get_spte in *. rewrite Hlk. case_decide as Hpg.
  - rewrite He. by exists (unpin_entry e).
  - by exists e.
Qed.

End Coverage.

(** * The argument slots of a request *)

Section Slots.

Context {env : Collaborators}.

Implicit Types (s : state) (f : intr_frame).

(** The stack-growth rule of the environment is the rule of the design
    document. *)
Hypothesis rule : forall a e, is_stack_growth a e = stack_growth_rule a e.






End Slots.

(** * The further properties on explicit requests *)

Lemma open_state_table_ok : fd_table_ok open_state.
Proof.
  unfold fd_table_ok. cbn. split_and!.
  - apply NoDup_singleton.
  - done.
  - apply Forall_singleton. cbn. done.
Defined.

Lemma plain_state_table_ok : fd_table_ok plain_state.
Proof.
  unfold fd_table_ok. cbn. split_and!.
  - apply NoDup_singleton.
  - done.
  - apply Forall_singleton. cbn. done.
Defined.

(** [open ("ab")] returns descriptor 3. *)
Lemma sys_open_hands_out_fresh_number_witness :
  on_return (sys_open 8 134512640 open_state) (fun r _ => r = 3)
  /\ when_returns (sys_open 8 134512640 open_state) (fun r s' =>
       fd_table_ok s'
       /\ filesystem_lock s' = false
       /\ ((r = -1 /\ file_descriptors s' = file_descriptors open_state
            /\ fd_index s' = fd_index open_state)
           \/ (2 <= r
               /\ get_fdstruct_in (file_descriptors open_state) r = None
               /\ (exists d, get_fdstruct_in (file_descriptors s') r = Some d
                             /\ file_descriptors s' = file_descriptors open_state ++ [d])
               /\ fd_index open_state < fd_index s'))).
Proof.
  split; [vm_compute; reflexivity|].
  apply (sys_open_hands_out_fresh_number 8 134512640 open_state);
    [exact open_state_table_ok|reflexivity].
Defined.

(** [close (2)] in a process whose only descriptor is 2. *)
Lemma sys_close_removes_descriptor_witness :
  get_fdstruct_in (file_descriptors plain_state) 2 = Some (mk_fd 2 100 [])
  /\ exists s',
       sys_close 2 plain_state = Ret tt s'
       /\ fd_table_ok s'
       /\ get_fdstruct_in (file_descriptors s') 2 = None
       /\ (forall n, n <> 2 ->
             get_fdstruct_in (file_descriptors s') n
             = get_fdstruct_in (file_descriptors plain_state) n)
       /\ world s' = file_close (file_pointer (mk_fd 2 100 [])) (world plain_state)
       /\ fd_index s' = fd_index plain_state
       /\ filesystem_lock s' = false.
Proof.
  split; [reflexivity|].
  apply (sys_close_removes_descriptor 2 plain_state (mk_fd 2 100 []));
    [exact plain_state_table_ok|reflexivity].
Defined.

(** [open ("ab")] followed by [close (3)]. *)
Lemma open_then_close_restores_table_witness :
  on_return (sys_open 8 134512640 open_state) (fun r _ => r = 3)
  /\ when_returns (sys_open 8 134512640 open_state) (fun r s1 =>
       r <> -1 ->
       exists s2, sys_close r s1 = Ret tt s2
                  /\ file_descriptors s2 = file_descriptors open_state).
Proof.
  split; [vm_compute; reflexivity|].
  apply (open_then_close_restores_table 8 134512640 open_state);
    [exact open_state_table_ok|reflexivity].
Defined.

(** The four bytes of the system call number of a read request. *)
Lemma valid_uaddr_decides_witness :
  forallb (mapped_user_byte read_null_state) (seqZ user_esp 4) = true
  /\ valid_uaddr user_esp 4 read_null_state
     = if forallb (mapped_user_byte read_null_state) (seqZ user_esp 4)
       then Ret tt read_null_state else sys_exit (-1) read_null_state.
Proof.
  split; [vm_compute; reflexivity|].
  apply (valid_uaddr_decides user_esp 4 read_null_state); vm_compute; congruence.
Defined.

(** The path "ab" of an open request. *)
Lemma valid_string_accepts_mapped_strings_witness :
  mem_cstring 8 (umem open_state) 134512640 = Some [97; 98]
  /\ when_returns (valid_string 8 134512640 open_state) (fun _ s' =>
       s' = open_state
       /\ exists l, mem_cstring 8 (umem open_state) 134512640 = Some l
                    /\ forall i, 0 <= i <= Z.of_nat (length l) ->
                         mapped_user_byte open_state (134512640 + i) = true).
Proof.
  split; [vm_compute; reflexivity|].
  apply (valid_string_accepts_mapped_strings 8 134512640 open_state).
  vm_compute. split; congruence.
Defined.

(** The two-byte buffer of a write request. *)
Lemma check_and_pin_buffer_pins_every_byte_witness :
  on_return (check_and_pin_buffer 134512640 2 user_esp false write_state)
    (fun _ _ => True)
  /\ when_returns (check_and_pin_buffer 134512640 2 user_esp false write_state)
       (fun _ s' =>
          untouched write_state s'
          /\ forall a, in_buffer 134512640 2 a ->
               is_valid_user_addr a = true
               /\ page_is s' a (fun e => pinned e = true
                                         /\ (false = true -> writeable e = true))).
Proof.
  split; [vm_compute; exact I|].
  apply (check_and_pin_buffer_pins_every_byte 134512640 2 user_esp false write_state);
    vm_compute; congruence.
Defined.

Lemma unpin_buffer_clears_range_witness :
  0 <= 134512640
  /\ exists s',
       unpin_buffer 134512640 2 write_state = Ret tt s'
       /\ untouched write_state s'
       /\ (forall a, in_buffer 134512640 2 a ->
             get_spte a s' = unpin_entry <$> get_spte a write_state)
       /\ (forall p, (forall a, in_buffer 134512640 2 a -> pg_no a <> p) ->
             spt s' !! p = spt write_state !! p).
Proof.
  split; [vm_compute; congruence|].
  apply (unpin_buffer_clears_range 134512640 2 write_state); vm_compute; congruence.
Defined.

(** A null buffer of length 0. *)
Lemma empty_buffer_is_not_checked_witness :
  is_valid_user_addr 0 = false
  /\ check_and_pin_buffer 0 0 user_esp true plain_state = Ret tt plain_state
  /\ unpin_buffer 0 0 plain_state = Ret tt plain_state.
Proof.
  split; [reflexivity|].
  apply (empty_buffer_is_not_checked 0 user_esp true plain_state).
  vm_compute. split; congruence.
Defined.

(** [write (1, 0x08048000, 2)] returns 2. *)
Lemma buffer_unpinned_after_dispatch_witness :
  on_return (syscall_handler 8 write_frame write_state) (fun f' _ => eax f' = 2)
  /\ when_returns (syscall_handler 8 write_frame write_state) (fun _ s' =>
       forall a,
         in_buffer (stack_arg write_state write_frame 1)
                   (stack_arg write_state write_frame 2) a ->
         page_is s' a (fun e => pinned e = false)).
Proof.
  split; [vm_compute; reflexivity|].
  apply (buffer_unpinned_after_dispatch 8 write_frame write_state).
  - left. vm_compute. reflexivity.
  - vm_compute. reflexivity.
Defined.

Lemma bad_stack_pointer_terminates_witness :
  mapped_user_byte plain_state 0 = false
  /\ syscall_handler 8 null_esp_frame plain_state = sys_exit (-1) plain_state.
Proof.
  split; [reflexivity|].
  apply (bad_stack_pointer_terminates 8 null_esp_frame plain_state).
  - vm_compute. congruence.
  - vm_compute. reflexivity.
  - vm_compute. reflexivity.
Defined.

(** The request numbered 99 returns with [eax] still 5. *)
Lemma unknown_request_runs_no_handler_witness :
  on_return (syscall_handler 8 unknown_frame unknown_state) (fun f' _ => eax f' = 5)
  /\ when_returns (syscall_handler 8 unknown_frame unknown_state)
       (fun f' s' => f' = unknown_frame /\ untouched unknown_state s').
Proof.
  split; [vm_compute; reflexivity|].
  apply (unknown_request_runs_no_handler 8 unknown_frame unknown_state).
  intros [_ H]. apply H. vm_compute. reflexivity.
Defined.

(** [exit (7)]. *)
Lemma exit_request_terminates_witness :
  to_int32 (stack_arg exit_request_state exit_frame 0) = 7
  /\ on_exit (syscall_handler 8 exit_frame exit_request_state)
       (fun s' => exit_status s' = 7)
  /\ on_exit (syscall_handler 8 exit_frame exit_request_state) (fun s' =>
       exit_status s'
       = if forallb (mapped_user_byte exit_request_state) (seqZ (esp exit_frame) 4)
            && (bool_decide (is_Some (get_spte (esp exit_frame + 4) exit_request_state))
                || @is_stack_growth (recording_env 4096) (esp exit_frame + 4) 4
                   && @frame_for_stack (recording_env 4096)
                        (pg_no (esp exit_frame + 4)))
         then to_int32 (stack_arg exit_request_state exit_frame 0)
         else -1).
Proof.
  split; [vm_compute; reflexivity|]. split; [vm_compute; reflexivity|].
  apply (exit_request_terminates 8 exit_frame exit_request_state).
  - vm_compute. reflexivity.
  - vm_compute. discriminate.
  - vm_compute. reflexivity.
Defined.

(** [mmap (2, NULL)]. *)
Lemma sys_mmap_rejects_bad_request_witness :
  get_fdstruct_in (file_descriptors plain_state) 2 = Some (mk_fd 2 100 [])
  /\ sys_mmap 2 0 plain_state = Ret (-1) plain_state.
Proof.
  split; [reflexivity|].
  apply (sys_mmap_rejects_bad_request 2 0 plain_state (mk_fd 2 100 []));
    [reflexivity|left; reflexivity].
Defined.

Lemma mmap_ok_state_pages_free i :
  0 <= i -> i * PGSIZE < 5000 -> spt mmap_ok_state !! (pg_no 268435456 + i) = None.
Proof.
  intros Hi Hl. assert (i = 0 \/ i = 1) as [-> | ->] by (unfold PGSIZE in Hl; lia);
    vm_compute; reflexivity.
Defined.

(** [mmap (2, 0x10000000)] of a 5000-byte file: pages 65536 and 65537. *)
Lemma sys_mmap_maps_whole_file_witness :
  page_count 5000 = 2
  /\ exists s',
       sys_mmap 2 268435456 mmap_ok_state = Ret (mapid mmap_ok_state) s'
       /\ mapid s' = to_int32 (mapid mmap_ok_state + 1)
       /\ file_descriptors s' = file_descriptors mmap_ok_state
       /\ world s' = (file_reopen 100 (world mmap_ok_state)).2
       /\ mmap_list s'
          = mmap_list mmap_ok_state
            ++ mapping_pages (Z.to_nat (page_count 5000)) (mapid mmap_ok_state)
                 (pg_no 268435456) (file_reopen 100 (world mmap_ok_state)).1
       /\ (forall i, 0 <= i -> i * PGSIZE < 5000 ->
             spt s' !! (pg_no 268435456 + i)
             = Some (mapped_entry (file_reopen 100 (world mmap_ok_state)).1 5000 i))
       /\ (forall p,
             (forall i, 0 <= i -> i * PGSIZE < 5000 -> p <> pg_no 268435456 + i) ->
             spt s' !! p = spt mmap_ok_state !! p).
Proof.
  split; [reflexivity|].
  apply (sys_mmap_maps_whole_file 2 268435456 mmap_ok_state (mk_fd 2 100 []));
    [reflexivity|vm_compute; congruence|reflexivity|reflexivity
    |vm_compute; split; reflexivity|vm_compute; congruence
    |exact mmap_ok_state_pages_free].
Defined.

Lemma mmap_then_munmap_restores_witness :
  mapid mmap_ok_state = 0
  /\ exists s1 s2,
       sys_mmap 2 268435456 mmap_ok_state = Ret (mapid mmap_ok_state) s1
       /\ sys_munmap (mapid mmap_ok_state) s1 = Ret tt s2
       /\ spt s2 = spt mmap_ok_state
       /\ mmap_list s2 = mmap_list mmap_ok_state.
Proof.
  split; [reflexivity|].
  apply (mmap_then_munmap_restores 2 268435456 mmap_ok_state (mk_fd 2 100 []));
    [reflexivity|vm_compute; congruence|reflexivity|reflexivity
    |vm_compute; split; reflexivity|vm_compute; congruence
    |exact mmap_ok_state_pages_free|].
  intros m Hm. by apply not_elem_of_nil in Hm.
Defined.

Lemma handlers_leave_lock_free_witness :
  on_return (sys_close 2 plain_state) (fun _ _ => True)
  /\ (when_returns (sys_create 8 0 0 plain_state) (fun _ s' => filesystem_lock s' = false)
      /\ when_returns (sys_remove 8 0 plain_state) (fun _ s' => filesystem_lock s' = false)
      /\ when_returns (sys_open 8 0 plain_state) (fun _ s' => filesystem_lock s' = false)
      /\ when_returns (sys_close 2 plain_state) (fun _ s' => filesystem_lock s' = false)
      /\ when_returns (sys_write 2 0 0 plain_state) (fun _ s' => filesystem_lock s' = false)
      /\ (2 <> 0 ->
          when_returns (sys_read 2 0 0 plain_state) (fun _ s' => filesystem_lock s' = false))
      /\ when_returns (sys_seek 2 0 plain_state) (fun _ s' => filesystem_lock s' = false)
      /\ when_returns (sys_tell 2 plain_state) (fun _ s' => filesystem_lock s' = false)
      /\ when_returns (sys_filesize 2 plain_state) (fun _ s' => filesystem_lock s' = false)).
Proof.
  split; [vm_compute; exact I|].
  assert (H := handlers_leave_lock_free 8 2 0 0 plain_state eq_refl).
  destruct H as (_ & _ & _ & Hc & Hw & Hr & Hs & Ht & Hf).
  destruct (handlers_leave_lock_free 8 0 0 0 plain_state eq_refl) as (H1 & H2 & H3 & _).
  split_and!; assumption.
Defined.

(** [halt ()]. *)
Lemma halt_request_powers_off_witness :
  forallb (mapped_user_byte halt_state) (seqZ (esp halt_frame) 4) = true
  /\ if forallb (mapped_user_byte halt_state) (seqZ (esp halt_frame) 4)
     then exists s', syscall_handler 8 halt_frame halt_state = PoweredOff s'
                     /\ untouched halt_state s'
     else syscall_handler 8 halt_frame halt_state = sys_exit (-1) halt_state.
Proof.
  split; [vm_compute; reflexivity|].
  apply (halt_request_powers_off 8 halt_frame halt_state).
  - vm_compute. reflexivity.
  - vm_compute. discriminate.
  - vm_compute. reflexivity.
Defined.

(** [open ("ab")] through the dispatcher. *)
Lemma string_unpinned_after_dispatch_witness :
  on_return (syscall_handler 8 open_frame open_state) (fun f' _ => eax f' = 3)
  /\ when_returns (syscall_handler 8 open_frame open_state) (fun _ s' =>
       exists l,
         mem_cstring 8 (umem open_state) (stack_arg open_state open_frame 0) = Some l
         /\ forall i, 0 <= i <= Z.of_nat (length l) ->
              page_is s' (stack_arg open_state open_frame 0 + i)
                (fun e => pinned e = false)).
Proof.
  split; [vm_compute; reflexivity|].
  apply (string_unpinned_after_dispatch 8 open_frame open_state).
  - right. left. vm_compute. reflexivity.
  - vm_compute. reflexivity.
Defined.

